(** * INOX price API: pricing engine, rule-set loader and override gate

    A shallow embedding of [src/price.ts] ([PriceInputSchema],
    [calculatePrice]), of the rule-set loader ([PricingSchema],
    [getPricingConfig], [reloadPricingConfig]) and of [sanitizeOverrides]
    from [src/app.ts], followed by the properties the specification states
    about them.

    Numbers.  A JavaScript number is modelled as an exact rational or
    [NaN]: rounding error of binary floating point and the two infinities
    are outside the model, so every statement below is about finite values
    and exact arithmetic.  [undefined] and values inherited from
    [Object.prototype] are kept, because the code can read both. *)

From Stdlib Require Import QArith Qround Qabs Qminmax Lqa.
From stdpp Require Import gmap strings list fin_maps.

#[local] Set Warnings "-register-all".
#[local] Open Scope Q_scope.

(** ** JavaScript values and arithmetic *)

Module JS.

(** A number: finite (exact) or NaN. *)
Inductive number : Type :=
| Fin (q : Q)
| NaN.

Definition lift2 (f : Q -> Q -> Q) (a b : number) : number :=
  match a, b with
  | Fin x, Fin y => Fin (f x y)
  | _, _ => NaN
  end.

Definition add : number -> number -> number := lift2 Qplus.
Definition sub : number -> number -> number := lift2 Qminus.
Definition mul : number -> number -> number := lift2 Qmult.

(** [Math.max(a, b)]: NaN as soon as one argument is NaN. *)
Definition Math_max : number -> number -> number :=
  lift2 (fun x y => if Qle_bool x y then y else x).

(** [Math.floor] on a finite number. *)
Definition floorQ (x : Q) : Q := inject_Z (Qfloor x).

(** [Math.round(x)] is [floor(x + 0.5)]: nearest integer, ties upwards. *)
Definition roundQ (x : Q) : Q := inject_Z (Qfloor (x + (1 # 2))).

Definition Math_round (a : number) : number :=
  match a with
  | Fin x => Fin (roundQ x)
  | NaN => NaN
  end.

(** What reading a property of a plain object of numbers can give. *)
Inductive jsval : Type :=
| JUndefined
| JNumber (q : Q)
| JInherited (name : string).

(** [ToNumber]: [undefined], functions and objects all convert to NaN. *)
Definition ToNumber (v : jsval) : number :=
  match v with
  | JNumber q => Fin q
  | JUndefined | JInherited _ => NaN
  end.

(** [a ?? b] *)
Definition nullish (a b : jsval) : jsval :=
  match a with
  | JUndefined => b
  | _ => a
  end.

(** Property names every plain object inherits from [Object.prototype]. *)
Definition Object_prototype_keys : list string :=
  [ "constructor"; "__defineGetter__"; "__defineSetter__"; "hasOwnProperty";
    "__lookupGetter__"; "__lookupSetter__"; "isPrototypeOf";
    "propertyIsEnumerable"; "toString"; "valueOf"; "__proto__";
    "toLocaleString" ]%string.

(** [k in o] for a plain object [o]: own or inherited. *)
Definition in_operator (k : string) (o : gmap string Q) : bool :=
  bool_decide (is_Some (o !! k)) || bool_decide (k ∈ Object_prototype_keys).

(** [o[k]] *)
Definition get_property (o : gmap string Q) (k : string) : jsval :=
  match o !! k with
  | Some q => JNumber q
  | None =>
      if bool_decide (k ∈ Object_prototype_keys) then JInherited k
      else JUndefined
  end.

(** Truthiness of a string: only the empty string is falsy. *)
Definition truthy (s : string) : bool :=
  match s with
  | EmptyString => false
  | _ => true
  end.

(** Order on numbers; every comparison with NaN is false. *)
Definition ge0 (a : number) : Prop :=
  match a with
  | Fin x => 0 <= x
  | NaN => False
  end.

End JS.

Coercion JS.Fin : Q >-> JS.number.

Declare Scope js_scope.
Delimit Scope js_scope with js.
Bind Scope js_scope with JS.number.
Infix "+" := JS.add : js_scope.
Infix "-" := JS.sub : js_scope.
Infix "*" := JS.mul : js_scope.

(** ** Parsed JSON *)

Inductive value : Type :=
| VNull
| VBool (b : bool)
| VNum (q : Q)
| VStr (s : string)
| VArr (l : list value)
| VObj (m : gmap string value).

Definition as_num (v : value) : option Q :=
  match v with
  | VNum q => Some q
  | _ => None
  end.

Definition as_str (v : value) : option string :=
  match v with
  | VStr s => Some s
  | _ => None
  end.

Definition as_obj (v : value) : option (gmap string value) :=
  match v with
  | VObj m => Some m
  | _ => None
  end.

(** [z.number()] on a required field. *)
Definition z_number (v : option value) : option Q := v ≫= as_num.

(** [z.number().optional()]: absent is accepted, a non-number is not. *)
Definition z_number_optional (v : option value) : option (option Q) :=
  match v with
  | None => Some None
  | Some (VNum q) => Some (Some q)
  | Some _ => None
  end.

(** [z.record(keys, z.number())]: every key present must pass [keyOk] and
    carry a number.  No key is required to be present, also when [keys] is
    an enum: the parse walks the properties the object has, and the type
    inferred for such a record is a partial one. *)
Definition z_record (keyOk : string -> bool) (v : value) : option (gmap string Q) :=
  match v with
  | VObj m =>
      if bool_decide (map_Forall (λ k x, keyOk k = true ∧ is_Some (as_num x)) m)
      then Some (omap as_num m)
      else None
  | _ => None
  end.

(** Outcome of a call that may throw. *)
Inductive result (A : Type) : Type :=
| Ok (a : A)
| Throw (msg : string).

Arguments Ok {A} a.
Arguments Throw {A} msg.

(** ** The rule set and its loader ([config.ts]) *)

Module Config.

Definition DeliveryDaysSchema : list string := ["7"; "30"; "45"; "60"]%string.

Record FirstOrderDiscountByType : Type := {
  fo_table_only : Q;
  fo_all_in_one : Q;
  fo_dimensioned : Q
}.

Record AdvancePaymentDiscount : Type := {
  adv_none : Q;
  adv_50 : Q;
  adv_100 : Q
}.

Record PricingConfig : Type := {
  dimensionBaseEUR : gmap string Q;
  base_table_only : Q;
  base_all_in_one : Q;
  startup_discount_eur : Q;
  first_order_discount_by_type : FirstOrderDiscountByType;
  delivery_surcharge_eur : gmap string Q;
  advance_payment_discount_eur : AdvancePaymentDiscount;
  two_pcs_line_discount_eur : Q
}.

(** [PricingSchema.safeParse(json)]: [Some] is [parsed.data] of a
    successful parse. *)
Definition PricingSchema_safeParse (json : value) : option PricingConfig :=
  m ← as_obj json;
  dims ← m !! "dimensionBaseEUR"%string ≫= z_record (λ _, true);
  bt ← z_number (m !! "base_table_only"%string);
  ba ← z_number (m !! "base_all_in_one"%string);
  su ← z_number (m !! "startup_discount_eur"%string);
  fo ← m !! "first_order_discount_by_type"%string ≫= as_obj;
  fo_t ← z_number (fo !! "table_only"%string);
  fo_a ← z_number (fo !! "all_in_one"%string);
  fo_d ← z_number (fo !! "dimensioned"%string);
  ds ← m !! "delivery_surcharge_eur"%string
         ≫= z_record (λ k, bool_decide (k ∈ DeliveryDaysSchema));
  ap ← m !! "advance_payment_discount_eur"%string ≫= as_obj;
  ap_n ← z_number (ap !! "none"%string);
  ap_50 ← z_number (ap !! "50"%string);
  ap_100 ← z_number (ap !! "100"%string);
  tp ← z_number (m !! "two_pcs_line_discount_eur"%string);
  Some {| dimensionBaseEUR := dims;
          base_table_only := bt;
          base_all_in_one := ba;
          startup_discount_eur := su;
          first_order_discount_by_type :=
            {| fo_table_only := fo_t; fo_all_in_one := fo_a; fo_dimensioned := fo_d |};
          delivery_surcharge_eur := ds;
          advance_payment_discount_eur :=
            {| adv_none := ap_n; adv_50 := ap_50; adv_100 := ap_100 |};
          two_pcs_line_discount_eur := tp |}.

(** A rule set is accepted by [PricingSchema] when it is the data of a
    successful parse. *)
Definition PricingSchema_accepts (cfg : PricingConfig) : Prop :=
  ∃ json, PricingSchema_safeParse json = Some cfg.

(** The file behind [cfgPath], seen through [fs.readFileSync] and
    [JSON.parse] (after the byte-order mark is dropped). *)
Inductive source : Type :=
| Unreadable
| Malformed
| Json (json : value).

(** The part of [getPricingConfig] that runs on an empty cache, up to the
    assignment to [cached].  The messages stand for the ones Node and the
    [throw] of the source produce. *)
Definition load (src : source) : result PricingConfig :=
  match src with
  | Unreadable => Throw "ENOENT: no such file or directory"
  | Malformed => Throw "Unexpected token in JSON"
  | Json json =>
      match PricingSchema_safeParse json with
      | None => Throw "Invalid pricing config: "
      | Some data => Ok data
      end
  end.

(** [let cached: PricingConfig | null]: the module-level state. *)
Definition cache : Type := option PricingConfig.

Definition getPricingConfig (src : source) (cached : cache)
  : result PricingConfig * cache :=
  match cached with
  | Some c => (Ok c, cached)
  | None =>
      match load src with
      | Ok data => (Ok data, Some data)
      | Throw msg => (Throw msg, cached)
      end
  end.

Definition reloadPricingConfig (src : source) (cached : cache)
  : result PricingConfig * cache :=
  let cached := (None : cache) in
  getPricingConfig src cached.

(** A run of [getPricingConfig] calls, each against the source as it is
    at that moment; gives the cache afterwards. *)
Fixpoint get_many (srcs : list source) (cached : cache) : cache :=
  match srcs with
  | [] => cached
  | src :: rest => get_many rest (snd (getPricingConfig src cached))
  end.

(** The top-level keys of [PricingSchema]; all are required. *)
Definition PricingSchema_keys : list string :=
  [ "dimensionBaseEUR"; "base_table_only"; "base_all_in_one";
    "startup_discount_eur"; "first_order_discount_by_type";
    "delivery_surcharge_eur"; "advance_payment_discount_eur";
    "two_pcs_line_discount_eur" ]%string.

(** The rule set as the JSON value [JSON.stringify(cfg)] writes out (it is
    what [configSignature] hashes). *)
Definition to_json (cfg : PricingConfig) : value :=
  VObj (list_to_map
    [ ("dimensionBaseEUR", VObj (VNum <$> dimensionBaseEUR cfg));
      ("base_table_only", VNum (base_table_only cfg));
      ("base_all_in_one", VNum (base_all_in_one cfg));
      ("startup_discount_eur", VNum (startup_discount_eur cfg));
      ("first_order_discount_by_type",
        VObj (list_to_map
          [ ("table_only", VNum (fo_table_only (first_order_discount_by_type cfg)));
            ("all_in_one", VNum (fo_all_in_one (first_order_discount_by_type cfg)));
            ("dimensioned", VNum (fo_dimensioned (first_order_discount_by_type cfg))) ]));
      ("delivery_surcharge_eur", VObj (VNum <$> delivery_surcharge_eur cfg));
      ("advance_payment_discount_eur",
        VObj (list_to_map
          [ ("none", VNum (adv_none (advance_payment_discount_eur cfg)));
            ("50", VNum (adv_50 (advance_payment_discount_eur cfg)));
            ("100", VNum (adv_100 (advance_payment_discount_eur cfg))) ]));
      ("two_pcs_line_discount_eur", VNum (two_pcs_line_discount_eur cfg)) ]%string).

End Config.

(** ** The pricing engine ([price.ts]) *)

Module Price.

Inductive ProductType : Type := dimensioned | table_only | all_in_one.
Inductive DeliveryDays : Type := D7 | D30 | D45 | D60.
Inductive AdvancePayment : Type := AP_none | AP_50 | AP_100.

(** [String(input.delivery_days)] *)
Definition String_of_days (d : DeliveryDays) : string :=
  match d with
  | D7 => "7"
  | D30 => "30"
  | D45 => "45"
  | D60 => "60"
  end.

(** [z.infer<typeof PriceInputSchema>] *)
Record PriceInput : Type := {
  product_type : ProductType;
  dimension : option string;
  quantity : Q;
  delivery_days : DeliveryDays;
  base_override_eur : option Q;
  startup_discount_eur : option Q;
  first_order_discount_eur : option Q;
  delivery_surcharge_override : option (gmap string Q);
  advance_payment : AdvancePayment;
  two_pcs_line_discount_eur : option Q;
  advance_payment_discount_eur : option Q;
  custom_unit_adjust_eur : option Q;
  custom_line_adjust_eur : option Q
}.

(** *** [PriceInputSchema], field by field *)

(** [z.enum(["dimensioned","table_only","all_in_one"])] *)
Definition product_type_schema (v : option value) : option ProductType :=
  s ← v ≫= as_str;
  if String.eqb s "dimensioned" then Some dimensioned
  else if String.eqb s "table_only" then Some table_only
  else if String.eqb s "all_in_one" then Some all_in_one
  else None.

(** [z.string().optional()] *)
Definition dimension_schema (v : option value) : option (option string) :=
  match v with
  | None => Some None
  | Some (VStr s) => Some (Some s)
  | Some _ => None
  end.

(** [z.number().min(1).max(500).default(1)] *)
Definition quantity_schema (v : option value) : option Q :=
  match v with
  | None => Some 1
  | Some (VNum q) => if Qle_bool 1 q && Qle_bool q 500 then Some q else None
  | Some _ => None
  end.

(** [z.union([z.literal(7), z.literal(30), z.literal(45), z.literal(60)])] *)
Definition delivery_days_schema (v : option value) : option DeliveryDays :=
  q ← v ≫= as_num;
  if Qeq_bool q 7 then Some D7
  else if Qeq_bool q 30 then Some D30
  else if Qeq_bool q 45 then Some D45
  else if Qeq_bool q 60 then Some D60
  else None.

(** [z.record(z.string(), z.number()).optional()] *)
Definition delivery_surcharge_override_schema (v : option value)
  : option (option (gmap string Q)) :=
  match v with
  | None => Some None
  | Some x => Some <$> z_record (λ _, true) x
  end.

(** [z.enum(["none","50","100"]).default("none")] *)
Definition advance_payment_schema (v : option value) : option AdvancePayment :=
  match v with
  | None => Some AP_none
  | Some x =>
      s ← as_str x;
      if String.eqb s "none" then Some AP_none
      else if String.eqb s "50" then Some AP_50
      else if String.eqb s "100" then Some AP_100
      else None
  end.

(** [PriceInputSchema.safeParse(body)]: [Some] is [parsed.data].  Only
    the declared keys of [body] are read. *)
Definition PriceInputSchema_safeParse (body : value) : option PriceInput :=
  m ← as_obj body;
  pt ← product_type_schema (m !! "product_type"%string);
  dim ← dimension_schema (m !! "dimension"%string);
  qty ← quantity_schema (m !! "quantity"%string);
  dd ← delivery_days_schema (m !! "delivery_days"%string);
  bo ← z_number_optional (m !! "base_override_eur"%string);
  su ← z_number_optional (m !! "startup_discount_eur"%string);
  fo ← z_number_optional (m !! "first_order_discount_eur"%string);
  dso ← delivery_surcharge_override_schema (m !! "delivery_surcharge_override"%string);
  ap ← advance_payment_schema (m !! "advance_payment"%string);
  tp ← z_number_optional (m !! "two_pcs_line_discount_eur"%string);
  apd ← z_number_optional (m !! "advance_payment_discount_eur"%string);
  cu ← z_number_optional (m !! "custom_unit_adjust_eur"%string);
  cl ← z_number_optional (m !! "custom_line_adjust_eur"%string);
  Some {| product_type := pt;
          dimension := dim;
          quantity := qty;
          delivery_days := dd;
          base_override_eur := bo;
          startup_discount_eur := su;
          first_order_discount_eur := fo;
          delivery_surcharge_override := dso;
          advance_payment := ap;
          two_pcs_line_discount_eur := tp;
          advance_payment_discount_eur := apd;
          custom_unit_adjust_eur := cu;
          custom_line_adjust_eur := cl |}.

(** An order configuration is accepted by the input schema when it is
    the data of a successful parse. *)
Definition PriceInputSchema_accepts (input : PriceInput) : Prop :=
  ∃ body, PriceInputSchema_safeParse body = Some input.

(** *** The price breakdown *)

Module Breakdown.

Record Adjustments : Type := {
  startup_discount : Q;
  first_order_discount : Q;
  delivery_surcharge : JS.jsval;
  advance_payment_discount : Q;
  two_pcs_line_discount_total : Q;
  custom_unit_adjust_eur : Q;
  custom_line_adjust_eur : Q
}.

Record t : Type := {
  base : JS.jsval;
  adjustments : Adjustments;
  unit : JS.number;
  subtotal : JS.number;
  total : JS.number
}.

End Breakdown.

(** *** [calculatePrice], one definition per [const] of the source *)

Definition first_order_lookup (cfg : Config.PricingConfig) (pt : ProductType) : Q :=
  let by_type := Config.first_order_discount_by_type cfg in
  match pt with
  | table_only => Config.fo_table_only by_type
  | all_in_one => Config.fo_all_in_one by_type
  | dimensioned => Config.fo_dimensioned by_type
  end.

Definition advance_lookup (cfg : Config.PricingConfig) (ap : AdvancePayment) : Q :=
  let by_tier := Config.advance_payment_discount_eur cfg in
  match ap with
  | AP_none => Config.adv_none by_tier
  | AP_50 => Config.adv_50 by_tier
  | AP_100 => Config.adv_100 by_tier
  end.

Definition dimension_error : string := "Missing or invalid 'dimension'.".

(** [const base = input.base_override_eur ?? (...)] *)
Definition resolve_base (cfg : Config.PricingConfig) (input : PriceInput)
  : result JS.jsval :=
  match base_override_eur input with
  | Some b => Ok (JS.JNumber b)
  | None =>
      match product_type input with
      | dimensioned =>
          match dimension input with
          | None => Throw dimension_error
          | Some d =>
              if negb (JS.truthy d)
                 || negb (JS.in_operator d (Config.dimensionBaseEUR cfg))
              then Throw dimension_error
              else Ok (JS.get_property (Config.dimensionBaseEUR cfg) d)
          end
      | table_only => Ok (JS.JNumber (Config.base_table_only cfg))
      | all_in_one => Ok (JS.JNumber (Config.base_all_in_one cfg))
      end
  end.

Definition resolve_startup (cfg : Config.PricingConfig) (input : PriceInput) : Q :=
  default (Config.startup_discount_eur cfg) (startup_discount_eur input).

Definition resolve_firstOrder (cfg : Config.PricingConfig) (input : PriceInput) : Q :=
  default (first_order_lookup cfg (product_type input)) (first_order_discount_eur input).

Definition resolve_delivery (cfg : Config.PricingConfig) (input : PriceInput)
  : JS.jsval :=
  let overrideMap := default ∅ (delivery_surcharge_override input) in
  let key := String_of_days (delivery_days input) in
  JS.nullish (JS.get_property overrideMap key)
             (JS.get_property (Config.delivery_surcharge_eur cfg) key).

Definition resolve_advance (cfg : Config.PricingConfig) (input : PriceInput) : Q :=
  default (advance_lookup cfg (advance_payment input)) (advance_payment_discount_eur input).

Definition unit_before_qty_of (base delivery : JS.jsval)
    (startup firstOrder advance custom_unit : Q) : JS.number :=
  (JS.Math_max 0 (JS.ToNumber base - startup - firstOrder
                  + JS.ToNumber delivery - advance)
   + custom_unit)%js.

Definition pairs_of (qty : Q) : Q := JS.floorQ (qty / 2).

Definition twoPcsLineDiscount_of (cfg : Config.PricingConfig) (input : PriceInput) : Q :=
  let qty := quantity input in
  if Qle_bool 2 qty
  then default (Config.two_pcs_line_discount_eur cfg) (two_pcs_line_discount_eur input)
       * pairs_of qty
  else 0.

(** [const cfg = getPricingConfig()] is the [cfg] passed in: the rule set
    the loader holds when the price is asked for. *)
Definition calculatePrice (cfg : Config.PricingConfig) (input : PriceInput)
  : result Breakdown.t :=
  match resolve_base cfg input with
  | Throw msg => Throw msg
  | Ok base =>
      let startup := resolve_startup cfg input in
      let firstOrder := resolve_firstOrder cfg input in
      let delivery := resolve_delivery cfg input in
      let advance := resolve_advance cfg input in
      let unit_before_qty :=
        unit_before_qty_of base delivery startup firstOrder advance
          (default 0 (custom_unit_adjust_eur input)) in
      let qty := quantity input in
      let subtotalBeforeLineAdj := (unit_before_qty * qty)%js in
      let twoPcsLineDiscount := twoPcsLineDiscount_of cfg input in
      let total :=
        JS.Math_max 0
          (JS.Math_round (subtotalBeforeLineAdj - twoPcsLineDiscount
                          + default 0 (custom_line_adjust_eur input))%js) in
      Ok {| Breakdown.base := base;
            Breakdown.adjustments :=
              {| Breakdown.startup_discount := startup;
                 Breakdown.first_order_discount := firstOrder;
                 Breakdown.delivery_surcharge := delivery;
                 Breakdown.advance_payment_discount := advance;
                 Breakdown.two_pcs_line_discount_total := twoPcsLineDiscount;
                 Breakdown.custom_unit_adjust_eur :=
                   default 0 (custom_unit_adjust_eur input);
                 Breakdown.custom_line_adjust_eur :=
                   default 0 (custom_line_adjust_eur input) |};
            Breakdown.unit := JS.Math_round unit_before_qty;
            Breakdown.subtotal := JS.Math_round subtotalBeforeLineAdj;
            Breakdown.total := total |}
  end.

(** *** [parsed.data] as the object it is

    [sanitizeOverrides] takes its argument as [any]; what it gets from
    the [/price] route is the object [safeParse] built.  [data_object]
    is that object: one own property per field that is defined. *)

Definition String_of_product_type (pt : ProductType) : string :=
  match pt with
  | dimensioned => "dimensioned"
  | table_only => "table_only"
  | all_in_one => "all_in_one"
  end.

Definition String_of_advance_payment (ap : AdvancePayment) : string :=
  match ap with
  | AP_none => "none"
  | AP_50 => "50"
  | AP_100 => "100"
  end.

Definition Number_of_days (d : DeliveryDays) : Q :=
  match d with
  | D7 => 7
  | D30 => 30
  | D45 => 45
  | D60 => 60
  end.

Definition field_value (data : PriceInput) (k : string) : option value :=
  if String.eqb k "product_type" then
    Some (VStr (String_of_product_type (product_type data)))
  else if String.eqb k "dimension" then VStr <$> dimension data
  else if String.eqb k "quantity" then Some (VNum (quantity data))
  else if String.eqb k "delivery_days" then
    Some (VNum (Number_of_days (delivery_days data)))
  else if String.eqb k "base_override_eur" then VNum <$> base_override_eur data
  else if String.eqb k "startup_discount_eur" then VNum <$> startup_discount_eur data
  else if String.eqb k "first_order_discount_eur" then
    VNum <$> first_order_discount_eur data
  else if String.eqb k "delivery_surcharge_override" then
    (λ m : gmap string Q, VObj (VNum <$> m)) <$> delivery_surcharge_override data
  else if String.eqb k "advance_payment" then
    Some (VStr (String_of_advance_payment (advance_payment data)))
  else if String.eqb k "two_pcs_line_discount_eur" then
    VNum <$> two_pcs_line_discount_eur data
  else if String.eqb k "advance_payment_discount_eur" then
    VNum <$> advance_payment_discount_eur data
  else if String.eqb k "custom_unit_adjust_eur" then VNum <$> custom_unit_adjust_eur data
  else if String.eqb k "custom_line_adjust_eur" then VNum <$> custom_line_adjust_eur data
  else None.

Definition schema_keys : list string :=
  [ "product_type"; "dimension"; "quantity"; "delivery_days";
    "base_override_eur"; "startup_discount_eur"; "first_order_discount_eur";
    "delivery_surcharge_override"; "advance_payment";
    "two_pcs_line_discount_eur"; "advance_payment_discount_eur";
    "custom_unit_adjust_eur"; "custom_line_adjust_eur" ]%string.

Definition data_object (data : PriceInput) : gmap string value :=
  list_to_map (omap (λ k, pair k <$> field_value data k) schema_keys).

(** The way [calculatePrice] reads the object it is handed, at the type
    [PriceInput]: no range check and no default, a property is what it
    is.  [None] when the object is not of that type. *)
Definition PriceInput_of_object (o : gmap string value) : option PriceInput :=
  pt ← product_type_schema (o !! "product_type"%string);
  dim ← dimension_schema (o !! "dimension"%string);
  qty ← z_number (o !! "quantity"%string);
  dd ← delivery_days_schema (o !! "delivery_days"%string);
  bo ← z_number_optional (o !! "base_override_eur"%string);
  su ← z_number_optional (o !! "startup_discount_eur"%string);
  fo ← z_number_optional (o !! "first_order_discount_eur"%string);
  dso ← delivery_surcharge_override_schema (o !! "delivery_surcharge_override"%string);
  ap ← (o !! "advance_payment"%string) ≫= λ x, advance_payment_schema (Some x);
  tp ← z_number_optional (o !! "two_pcs_line_discount_eur"%string);
  apd ← z_number_optional (o !! "advance_payment_discount_eur"%string);
  cu ← z_number_optional (o !! "custom_unit_adjust_eur"%string);
  cl ← z_number_optional (o !! "custom_line_adjust_eur"%string);
  Some {| product_type := pt;
          dimension := dim;
          quantity := qty;
          delivery_days := dd;
          base_override_eur := bo;
          startup_discount_eur := su;
          first_order_discount_eur := fo;
          delivery_surcharge_override := dso;
          advance_payment := ap;
          two_pcs_line_discount_eur := tp;
          advance_payment_discount_eur := apd;
          custom_unit_adjust_eur := cu;
          custom_line_adjust_eur := cl |}.

(** An order with its eight override fields undefined. *)
Definition without_overrides (data : PriceInput) : PriceInput :=
  {| product_type := product_type data;
     dimension := dimension data;
     quantity := quantity data;
     delivery_days := delivery_days data;
     base_override_eur := None;
     startup_discount_eur := None;
     first_order_discount_eur := None;
     delivery_surcharge_override := None;
     advance_payment := advance_payment data;
     two_pcs_line_discount_eur := None;
     advance_payment_discount_eur := None;
     custom_unit_adjust_eur := None;
     custom_line_adjust_eur := None |}.

(** What a successful [PriceInputSchema] parse says about each key of the
    body, and back. *)
Definition parsed_fields (m : gmap string value) (data : PriceInput) : Prop :=
  product_type_schema (m !! "product_type"%string) = Some (product_type data)
  ∧ dimension_schema (m !! "dimension"%string) = Some (dimension data)
  ∧ quantity_schema (m !! "quantity"%string) = Some (quantity data)
  ∧ delivery_days_schema (m !! "delivery_days"%string)
    = Some (delivery_days data)
  ∧ z_number_optional (m !! "base_override_eur"%string)
    = Some (base_override_eur data)
  ∧ z_number_optional (m !! "startup_discount_eur"%string)
    = Some (startup_discount_eur data)
  ∧ z_number_optional (m !! "first_order_discount_eur"%string)
    = Some (first_order_discount_eur data)
  ∧ delivery_surcharge_override_schema (m !! "delivery_surcharge_override"%string)
    = Some (delivery_surcharge_override data)
  ∧ advance_payment_schema (m !! "advance_payment"%string)
    = Some (advance_payment data)
  ∧ z_number_optional (m !! "two_pcs_line_discount_eur"%string)
    = Some (two_pcs_line_discount_eur data)
  ∧ z_number_optional (m !! "advance_payment_discount_eur"%string)
    = Some (advance_payment_discount_eur data)
  ∧ z_number_optional (m !! "custom_unit_adjust_eur"%string)
    = Some (custom_unit_adjust_eur data)
  ∧ z_number_optional (m !! "custom_line_adjust_eur"%string)
    = Some (custom_line_adjust_eur data).

(** The same order with another [dimension], and with another
    [delivery_surcharge_override]. *)
Definition with_dimension (dim : option string) (data : PriceInput) : PriceInput :=
  {| product_type := product_type data;
     dimension := dim;
     quantity := quantity data;
     delivery_days := delivery_days data;
     base_override_eur := base_override_eur data;
     startup_discount_eur := startup_discount_eur data;
     first_order_discount_eur := first_order_discount_eur data;
     delivery_surcharge_override := delivery_surcharge_override data;
     advance_payment := advance_payment data;
     two_pcs_line_discount_eur := two_pcs_line_discount_eur data;
     advance_payment_discount_eur := advance_payment_discount_eur data;
     custom_unit_adjust_eur := custom_unit_adjust_eur data;
     custom_line_adjust_eur := custom_line_adjust_eur data |}.

Definition with_delivery_surcharge_override (overrideMap : option (gmap string Q))
    (data : PriceInput) : PriceInput :=
  {| product_type := product_type data;
     dimension := dimension data;
     quantity := quantity data;
     delivery_days := delivery_days data;
     base_override_eur := base_override_eur data;
     startup_discount_eur := startup_discount_eur data;
     first_order_discount_eur := first_order_discount_eur data;
     delivery_surcharge_override := overrideMap;
     advance_payment := advance_payment data;
     two_pcs_line_discount_eur := two_pcs_line_discount_eur data;
     advance_payment_discount_eur := advance_payment_discount_eur data;
     custom_unit_adjust_eur := custom_unit_adjust_eur data;
     custom_line_adjust_eur := custom_line_adjust_eur data |}.

(** [calculatePrice(input)] with the rule set it fetches itself: the
    first line of the function is [const cfg = getPricingConfig()]. *)
Definition calculatePrice_cached (src : Config.source) (cached : Config.cache)
    (input : PriceInput) : result Breakdown.t * Config.cache :=
  match Config.getPricingConfig src cached with
  | (Ok cfg, cached') => (calculatePrice cfg input, cached')
  | (Throw msg, cached') => (Throw msg, cached')
  end.

End Price.

(** ** The override gate ([app.ts]) *)

Module App.

(** The eight names bound by the destructuring pattern. *)
Definition override_fields : list string :=
  [ "base_override_eur"; "startup_discount_eur"; "first_order_discount_eur";
    "delivery_surcharge_override"; "two_pcs_line_discount_eur";
    "advance_payment_discount_eur"; "custom_unit_adjust_eur";
    "custom_line_adjust_eur" ]%string.

(** The keys [PriceInputSchema] declares. *)
Definition declared_fields : list string :=
  [ "product_type"; "dimension"; "quantity"; "delivery_days";
    "advance_payment" ]%string ++ override_fields.

(** [const { ...eight names..., ...safe } = input; return safe]: the rest
    object holds the own properties of [input] the pattern does not
    name. *)
Definition sanitizeOverrides (input : gmap string value) (allow : bool)
  : gmap string value :=
  if allow then input
  else filter (λ kv, kv.1 ∉ override_fields) input.

(** [keyMatches(req)]: [Boolean(process.env.API_KEY) &&
    req.header("x-api-key") === process.env.API_KEY], on the value of the
    environment variable and of the header ([None]: not set). *)
Definition keyMatches (API_KEY header : option string) : bool :=
  match API_KEY with
  | Some key => JS.truthy key && bool_decide (header = Some key)
  | None => false
  end.

(** [guard]: [true] stands for [next()], [false] for the 401 answer. *)
Definition guard (API_KEY header : option string) : bool :=
  match API_KEY with
  | Some key =>
      if JS.truthy key && negb (keyMatches API_KEY header) then false else true
  | None => true
  end.

(** What [POST /price] answers, past the rate limiter. *)
Inductive price_response : Type :=
| Price200 (r : Price.Breakdown.t)
| Price400
| Price500 (error : string).

(** [e?.message || "Internal error"] *)
Definition error_message (msg : string) : string :=
  if JS.truthy msg then msg else "Internal error".

(** The handler of [POST /price]: the answer and the loader's cache
    afterwards.  The payload is read back at the type [calculatePrice]
    declares; the branch for an ill-typed payload is never taken
    (see [payload_is_typed]). *)
Definition price_route (src : Config.source) (cached : Config.cache)
    (API_KEY header : option string) (body : value)
  : price_response * Config.cache :=
  match Price.PriceInputSchema_safeParse body with
  | None => (Price400, cached)
  | Some data =>
      let payload :=
        sanitizeOverrides (Price.data_object data) (keyMatches API_KEY header) in
      match Price.PriceInput_of_object payload with
      | None => (Price500 "Internal error", cached)
      | Some input =>
          match Price.calculatePrice_cached src cached input with
          | (Ok r, cached') => (Price200 r, cached')
          | (Throw msg, cached') => (Price500 (error_message msg), cached')
          end
      end
  end.

(** What [POST /admin/reload-config] answers; an exception thrown by the
    handler gives the 500 of the framework. *)
Inductive reload_response : Type :=
| Reload200 (dimensions : nat)
| Reload401
| Reload500.

Definition reload_route (src : Config.source) (cached : Config.cache)
    (API_KEY header : option string) : reload_response * Config.cache :=
  if negb (keyMatches API_KEY header) then (Reload401, cached)
  else
    match Config.reloadPricingConfig src cached with
    | (Ok cfg, cached') => (Reload200 (size (Config.dimensionBaseEUR cfg)), cached')
    | (Throw _, cached') => (Reload500, cached')
    end.

End App.

(** ** The spreadsheet path ([services/googleSheets.ts],
    [services/priceCalculator.ts])

    The two sheets are taken as they are once [loadCells] has run: a sheet
    maps an A1 address to what [parseFloat(cell.value)] gives.  The
    30-second refresh and the timestamp of the answers are left out. *)

Module Sheets.

Definition sheet : Type := string → JS.number.

(** [x || 0] on a number: NaN and 0 are falsy. *)
Definition or0 (x : JS.number) : Q :=
  match x with
  | JS.Fin q => if Qeq_bool q 0 then 0 else q
  | JS.NaN => 0
  end.

(** [parseFloat(sheet.getCellByA1(a1).value) || 0] *)
Definition cell_number (s : sheet) (a1 : string) : Q := or0 (s a1).

(** An optional boolean where the code tests it. *)
Definition flag (b : option bool) : bool := default false b.

Definition dimensionMap : list (string * string) :=
  [ ("140 x 70", "C2"); ("140 x 80", "C3"); ("140 x 90", "C4"); ("140 x 100", "C5");
    ("160 x 70", "C6"); ("160 x 80", "C7"); ("160 x 90", "C8"); ("160 x 100", "C9");
    ("180 x 70", "C10"); ("180 x 80", "C11"); ("180 x 90", "C12"); ("180 x 100", "C13");
    ("200 x 70", "C14"); ("200 x 80", "C15"); ("200 x 90", "C16"); ("200 x 100", "C17")
  ]%string.

(** [getBigTableBasePrice].  A name inherited from [Object.prototype]
    passes the [!cellAddress] test with a function or an object, on which
    [getCellByA1] fails. *)
Definition getBigTableBasePrice (s : sheet) (dimension : string) : result Q :=
  match (list_to_map dimensionMap : gmap string string) !! dimension with
  | Some cellAddress => Ok (cell_number s cellAddress)
  | None =>
      if bool_decide (dimension ∈ JS.Object_prototype_keys)
      then Throw "TypeError: a1Address.match is not a function"
      else Throw ("Invalid dimension: " ++ dimension)
  end.

Module BigTableDiscounts.
Record t : Type := {
  startupFactory : Q;
  fastOrder7Days : Q;
  advancePayment50 : Q;
  advancePayment100 : Q;
  quantity2Plus : Q
}.
End BigTableDiscounts.

Definition getBigTableDiscounts (s : sheet) : BigTableDiscounts.t :=
  {| BigTableDiscounts.startupFactory := cell_number s "E2";
     BigTableDiscounts.fastOrder7Days := cell_number s "E3";
     BigTableDiscounts.advancePayment50 := cell_number s "E4";
     BigTableDiscounts.advancePayment100 := cell_number s "E5";
     BigTableDiscounts.quantity2Plus := cell_number s "E6" |}.

Definition getBigTableDeliveryFee (s : sheet) (deliveryDays : Q) : Q :=
  if Qle_bool deliveryDays 30 then cell_number s "E11"
  else if Qle_bool deliveryDays 45 then cell_number s "E10"
  else cell_number s "E9".

Module BigTableParams.
Record t : Type := {
  dimension : string;
  quantity : Q;
  delivery_days : Q;
  advance_payment : Q;
  is_startup_factory : option bool;
  is_fast_order : option bool;
  include_delivery : option bool
}.
End BigTableParams.

Module BigTableResult.
Record t : Type := {
  base_price : Q;
  discounts_applied : Q;
  delivery_fee : Q;
  price_per_unit : Q;
  quantity : Q;
  total_price : Q;
  dimension : string;
  delivery_days : Q;
  advance_payment : Q
}.
End BigTableResult.

Definition calculateBigTablePrice (s : sheet) (params : BigTableParams.t)
  : result BigTableResult.t :=
  let dimension := BigTableParams.dimension params in
  let quantity := BigTableParams.quantity params in
  let delivery_days := BigTableParams.delivery_days params in
  let advance_payment := BigTableParams.advance_payment params in
  let is_startup_factory := flag (BigTableParams.is_startup_factory params) in
  let is_fast_order := flag (BigTableParams.is_fast_order params) in
  let include_delivery := default true (BigTableParams.include_delivery params) in
  match getBigTableBasePrice s dimension with
  | Throw msg => Throw msg
  | Ok dimensionPrice =>
      if Qeq_bool dimensionPrice 0
      then Throw ("Price not found for dimension: " ++ dimension)
      else
        let deliveryFee := getBigTableDeliveryFee s delivery_days in
        let basePrice := dimensionPrice in
        let discounts := getBigTableDiscounts s in
        let totalDiscounts := 0 in
        let totalDiscounts :=
          if is_startup_factory
          then totalDiscounts + BigTableDiscounts.startupFactory discounts
          else totalDiscounts in
        let totalDiscounts :=
          if is_fast_order && Qle_bool delivery_days 7
          then totalDiscounts + BigTableDiscounts.fastOrder7Days discounts
          else totalDiscounts in
        let totalDiscounts :=
          if Qle_bool 100 advance_payment
          then totalDiscounts + BigTableDiscounts.advancePayment100 discounts
          else if Qle_bool 50 advance_payment
          then totalDiscounts + BigTableDiscounts.advancePayment50 discounts
          else totalDiscounts in
        let totalDiscounts :=
          if Qle_bool 2 quantity
          then totalDiscounts + BigTableDiscounts.quantity2Plus discounts
          else totalDiscounts in
        let stepPrice := basePrice in
        let stepPrice :=
          if is_startup_factory
          then stepPrice - BigTableDiscounts.startupFactory discounts
          else stepPrice in
        let stepPrice := if include_delivery then stepPrice + deliveryFee else stepPrice in
        let stepPrice :=
          if Qle_bool 100 advance_payment
          then stepPrice - BigTableDiscounts.advancePayment100 discounts
          else if Qle_bool 50 advance_payment
          then stepPrice - BigTableDiscounts.advancePayment50 discounts
          else stepPrice in
        let stepPrice :=
          if is_fast_order
          then stepPrice - BigTableDiscounts.fastOrder7Days discounts
          else stepPrice in
        let stepPrice :=
          if Qle_bool 2 quantity
          then stepPrice - BigTableDiscounts.quantity2Plus discounts
          else stepPrice in
        let pricePerUnit := stepPrice in
        let totalPrice := pricePerUnit * quantity in
        Ok {| BigTableResult.base_price := basePrice;
              BigTableResult.discounts_applied := totalDiscounts;
              BigTableResult.delivery_fee := deliveryFee;
              BigTableResult.price_per_unit := pricePerUnit;
              BigTableResult.quantity := quantity;
              BigTableResult.total_price := JS.roundQ totalPrice;
              BigTableResult.dimension := dimension;
              BigTableResult.delivery_days := delivery_days;
              BigTableResult.advance_payment := advance_payment |}
  end.

(** [getAllInOneBasePrice] *)
Definition getAllInOneBasePrice (s : sheet) (hasCuttingBoard hasWaterPackage : bool) : Q :=
  let cellAddress :=
    if negb hasCuttingBoard && negb hasWaterPackage then "C2"
    else if hasCuttingBoard && negb hasWaterPackage then "C3"
    else if negb hasCuttingBoard && hasWaterPackage then "C4"
    else "C5" in
  cell_number s cellAddress.

Definition getPackageType (hasCuttingBoard hasWaterPackage : bool) : string :=
  if negb hasCuttingBoard && negb hasWaterPackage then "raw_table"
  else if hasCuttingBoard && negb hasWaterPackage then "cutting_board_package"
  else if negb hasCuttingBoard && hasWaterPackage then "water_package"
  else "all_in_one".

Module AllInOneDiscounts.
Record t : Type := {
  startupFactory : Q;
  firstOrderRawTable : Q;
  firstOrderAllInOne : Q;
  advancePayment50 : Q;
  advancePayment100 : Q;
  quantity2Plus : Q
}.
End AllInOneDiscounts.

Definition getAllInOneDiscounts (s : sheet) : AllInOneDiscounts.t :=
  {| AllInOneDiscounts.startupFactory := cell_number s "E2";
     AllInOneDiscounts.firstOrderRawTable := cell_number s "E3";
     AllInOneDiscounts.firstOrderAllInOne := cell_number s "E4";
     AllInOneDiscounts.advancePayment50 := cell_number s "E5";
     AllInOneDiscounts.advancePayment100 := cell_number s "E6";
     AllInOneDiscounts.quantity2Plus := cell_number s "E7" |}.

Definition getAllInOneDeliveryFee (s : sheet) (deliveryDays : Q) : Q :=
  if Qle_bool deliveryDays 30 then cell_number s "E12"
  else if Qle_bool deliveryDays 45 then cell_number s "E11"
  else cell_number s "E10".

Module AllInOneParams.
Record t : Type := {
  has_cutting_board : bool;
  has_water_package : bool;
  quantity : Q;
  delivery_days : Q;
  advance_payment : Q;
  is_startup_factory : option bool;
  is_first_order : option bool;
  include_delivery : option bool
}.
End AllInOneParams.

Module AllInOneResult.
Record t : Type := {
  base_price : Q;
  package_type : string;
  discounts_applied : Q;
  delivery_fee : Q;
  price_per_unit : Q;
  quantity : Q;
  total_price : Q;
  has_cutting_board : bool;
  has_water_package : bool;
  delivery_days : Q;
  advance_payment : Q
}.
End AllInOneResult.

Definition calculateAllInOnePrice (s : sheet) (params : AllInOneParams.t)
  : AllInOneResult.t :=
  let has_cutting_board := AllInOneParams.has_cutting_board params in
  let has_water_package := AllInOneParams.has_water_package params in
  let quantity := AllInOneParams.quantity params in
  let delivery_days := AllInOneParams.delivery_days params in
  let advance_payment := AllInOneParams.advance_payment params in
  let is_startup_factory := default true (AllInOneParams.is_startup_factory params) in
  let is_first_order := flag (AllInOneParams.is_first_order params) in
  let include_delivery := default true (AllInOneParams.include_delivery params) in
  let packagePrice := getAllInOneBasePrice s has_cutting_board has_water_package in
  let packageType := getPackageType has_cutting_board has_water_package in
  let deliveryFee := getAllInOneDeliveryFee s delivery_days in
  let basePrice := packagePrice in
  let discounts := getAllInOneDiscounts s in
  let totalDiscounts := 0 in
  let totalDiscounts :=
    if is_startup_factory
    then totalDiscounts + AllInOneDiscounts.startupFactory discounts
    else totalDiscounts in
  let totalDiscounts :=
    if is_first_order
    then if String.eqb packageType "all_in_one"
         then totalDiscounts + AllInOneDiscounts.firstOrderAllInOne discounts
         else totalDiscounts + AllInOneDiscounts.firstOrderRawTable discounts
    else totalDiscounts in
  let totalDiscounts :=
    if Qle_bool 100 advance_payment
    then totalDiscounts + AllInOneDiscounts.advancePayment100 discounts
    else if Qle_bool 50 advance_payment
    then totalDiscounts + AllInOneDiscounts.advancePayment50 discounts
    else totalDiscounts in
  let totalDiscounts :=
    if Qle_bool 2 quantity
    then totalDiscounts + AllInOneDiscounts.quantity2Plus discounts
    else totalDiscounts in
  let stepPrice := basePrice in
  let stepPrice :=
    if is_startup_factory
    then stepPrice - AllInOneDiscounts.startupFactory discounts
    else stepPrice in
  let stepPrice := if include_delivery then stepPrice + deliveryFee else stepPrice in
  let stepPrice :=
    if Qle_bool 100 advance_payment
    then stepPrice - AllInOneDiscounts.advancePayment100 discounts
    else if Qle_bool 50 advance_payment
    then stepPrice - AllInOneDiscounts.advancePayment50 discounts
    else stepPrice in
  let stepPrice :=
    if is_first_order
    then if String.eqb packageType "all_in_one"
         then stepPrice - AllInOneDiscounts.firstOrderAllInOne discounts
         else stepPrice - AllInOneDiscounts.firstOrderRawTable discounts
    else stepPrice in
  let stepPrice :=
    if Qle_bool 2 quantity
    then stepPrice - AllInOneDiscounts.quantity2Plus discounts
    else stepPrice in
  let pricePerUnit := stepPrice in
  let totalPrice := pricePerUnit * quantity in
  {| AllInOneResult.base_price := basePrice;
     AllInOneResult.package_type := packageType;
     AllInOneResult.discounts_applied := totalDiscounts;
     AllInOneResult.delivery_fee := deliveryFee;
     AllInOneResult.price_per_unit := pricePerUnit;
     AllInOneResult.quantity := quantity;
     AllInOneResult.total_price := JS.roundQ totalPrice;
     AllInOneResult.has_cutting_board := has_cutting_board;
     AllInOneResult.has_water_package := has_water_package;
     AllInOneResult.delivery_days := delivery_days;
     AllInOneResult.advance_payment := advance_payment |}.

(** *** [PriceCalculatorService] *)

Inductive ProductType : Type := big_table | all_in_one.

(** [z.infer<typeof PriceRequestSchema>] *)
Module PriceRequest.
Record t : Type := {
  product_type : ProductType;
  dimension : option string;
  is_fast_order : bool;
  include_delivery : bool;
  has_cutting_board : bool;
  has_water_package : bool;
  is_first_order : bool;
  quantity : Q;
  delivery_days : Q;
  advance_payment : Q;
  is_startup_factory : bool
}.
End PriceRequest.

(** The range checks of [PriceRequestSchema] on a request of that type. *)
Definition PriceRequestSchema_check (request : PriceRequest.t) : bool :=
  Qle_bool 1 (PriceRequest.quantity request)
  && Qle_bool (PriceRequest.quantity request) 500
  && Qle_bool 7 (PriceRequest.delivery_days request)
  && Qle_bool (PriceRequest.delivery_days request) 60
  && Qle_bool 0 (PriceRequest.advance_payment request)
  && Qle_bool (PriceRequest.advance_payment request) 100.

Definition validDimensions : list string :=
  [ "140 x 70"; "140 x 80"; "140 x 90"; "140 x 100";
    "160 x 70"; "160 x 80"; "160 x 90"; "160 x 100";
    "180 x 70"; "180 x 80"; "180 x 90"; "180 x 100";
    "200 x 70"; "200 x 80"; "200 x 90"; "200 x 100" ]%string.

Definition getAvailableDimensions : list string :=
  [ "140 x 70"; "140 x 80"; "140 x 90"; "140 x 100";
    "160 x 70"; "160 x 80"; "160 x 90"; "160 x 100";
    "180 x 70"; "180 x 80"; "180 x 90"; "180 x 100";
    "200 x 70"; "200 x 80"; "200 x 90"; "200 x 100" ]%string.

Module Package.
Record t : Type := {
  id : string;
  name : string;
  has_cutting_board : bool;
  has_water_package : bool;
  description : string
}.
End Package.

Definition getAvailablePackages : list Package.t :=
  [ {| Package.id := "raw_table"; Package.name := "Raw Table Only";
       Package.has_cutting_board := false; Package.has_water_package := false;
       Package.description := "Basic stainless steel table without addons" |};
    {| Package.id := "cutting_board_package"; Package.name := "Cutting Board Package";
       Package.has_cutting_board := true; Package.has_water_package := false;
       Package.description := "Table with cutting board addon" |};
    {| Package.id := "water_package"; Package.name := "Water Package";
       Package.has_cutting_board := false; Package.has_water_package := true;
       Package.description := "Table with water system addon" |};
    {| Package.id := "all_in_one"; Package.name := "All-in-One Package";
       Package.has_cutting_board := true; Package.has_water_package := true;
       Package.description :=
         "Complete package with both cutting board and water system" |} ].

Inductive ServiceResult : Type :=
| BigTable (r : BigTableResult.t)
| AllInOne (r : AllInOneResult.t).

(** [`, `]-joined list, as [validDimensions.join(', ')] gives. *)
Fixpoint join (l : list string) : string :=
  match l with
  | [] => ""
  | [x] => x
  | x :: rest => x ++ ", " ++ join rest
  end.

(** The private [calculateBigTablePrice] of the service. *)
Definition service_calculateBigTablePrice (s : sheet) (request : PriceRequest.t)
  : result ServiceResult :=
  match PriceRequest.dimension request with
  | None => Throw "Dimension is required for big_table product type"
  | Some dimension =>
      if negb (JS.truthy dimension)
      then Throw "Dimension is required for big_table product type"
      else if negb (bool_decide (dimension ∈ validDimensions))
      then Throw ("Invalid dimension: " ++ dimension ++ ". Valid dimensions: "
                  ++ join validDimensions)
      else
        match calculateBigTablePrice s
                {| BigTableParams.dimension := dimension;
                   BigTableParams.quantity := PriceRequest.quantity request;
                   BigTableParams.delivery_days := PriceRequest.delivery_days request;
                   BigTableParams.advance_payment := PriceRequest.advance_payment request;
                   BigTableParams.is_startup_factory :=
                     Some (PriceRequest.is_startup_factory request);
                   BigTableParams.is_fast_order :=
                     Some (PriceRequest.is_fast_order request);
                   BigTableParams.include_delivery :=
                     Some (PriceRequest.include_delivery request) |} with
        | Ok r => Ok (BigTable r)
        | Throw msg => Throw msg
        end
  end.

Definition service_calculateAllInOnePrice (s : sheet) (request : PriceRequest.t)
  : result ServiceResult :=
  Ok (AllInOne
        (calculateAllInOnePrice s
           {| AllInOneParams.has_cutting_board := PriceRequest.has_cutting_board request;
              AllInOneParams.has_water_package := PriceRequest.has_water_package request;
              AllInOneParams.quantity := PriceRequest.quantity request;
              AllInOneParams.delivery_days := PriceRequest.delivery_days request;
              AllInOneParams.advance_payment := PriceRequest.advance_payment request;
              AllInOneParams.is_startup_factory :=
                Some (PriceRequest.is_startup_factory request);
              AllInOneParams.is_first_order := Some (PriceRequest.is_first_order request);
              AllInOneParams.include_delivery :=
                Some (PriceRequest.include_delivery request) |})).

(** [PriceCalculatorService.calculatePrice], on sheets already loaded;
    [PriceRequestSchema.parse] throws on a request out of range. *)
Definition service_calculatePrice (s_big s_all : sheet) (request : PriceRequest.t)
  : result ServiceResult :=
  if negb (PriceRequestSchema_check request) then Throw "ZodError"
  else
    match PriceRequest.product_type request with
    | big_table => service_calculateBigTablePrice s_big request
    | all_in_one => service_calculateAllInOnePrice s_all request
    end.

End Sheets.

(** ** The specification's formulas (§4.2), in its own words *)

Module Spec.

(** Step 3: [max(0, base − startup − firstOrder + delivery − advance)
    + customUnitAdjust]. *)
Definition unit_price (base startup firstOrder delivery advance customUnitAdjust : Q) : Q :=
  Qmax 0 (base - startup - firstOrder + delivery - advance) + customUnitAdjust.

(** Step 4: the unrounded subtotal. *)
Definition subtotal_unrounded (unit_price quantity : Q) : Q := unit_price * quantity.

(** Rounding policy: [z] is an integer nearest to [x]. *)
Definition nearest_integer (z : Z) (x : Q) : Prop :=
  ∀ k : Z, Qabs (x - inject_Z z) <= Qabs (x - inject_Z k).

(** Step 5: [floor(quantity / 2) × bulkDiscountPerPair], only when
    [quantity ≥ 2]. *)
Definition bulk_discount (quantity perPairRate : Q) : Q :=
  if Qle_bool 2 quantity then inject_Z (Qfloor (quantity / 2)) * perPairRate else 0.

(** Step 6: [max(0, round(...))] on the rounded integer. *)
Definition floor_at_zero (rounded : Z) : Q := inject_Z (Z.max 0 rounded).

End Spec.

(** ** Concrete rule sets and requests

    The reference rule set carries the values the tests in
    [tests/price.test.ts] rely on (base 1170 for 200x100, startup 25,
    two-piece discount 25, ...); the tiers no test reads (7 days, 100 %
    advance) are given arbitrary values. *)

Module Examples.

Definition obj (l : list (string * value)) : value := VObj (list_to_map l).

Definition reference_json_with (delivery : value) : value :=
  obj [ ("dimensionBaseEUR", obj [("200x100", VNum 1170)]);
        ("base_table_only", VNum 430);
        ("base_all_in_one", VNum 900);
        ("startup_discount_eur", VNum 25);
        ("first_order_discount_by_type",
          obj [("table_only", VNum 50); ("all_in_one", VNum 150); ("dimensioned", VNum 50)]);
        ("delivery_surcharge_eur", delivery);
        ("advance_payment_discount_eur",
          obj [("none", VNum 0); ("50", VNum 50); ("100", VNum 100)]);
        ("two_pcs_line_discount_eur", VNum 25) ]%string.

Definition reference_json : value :=
  reference_json_with
    (obj [("7", VNum 300); ("30", VNum 200); ("45", VNum 100); ("60", VNum 25)]%string).

Definition reference_config_with (delivery : gmap string Q) : Config.PricingConfig :=
  {| Config.dimensionBaseEUR := {[ "200x100"%string := 1170 ]};
     Config.base_table_only := 430;
     Config.base_all_in_one := 900;
     Config.startup_discount_eur := 25;
     Config.first_order_discount_by_type :=
       {| Config.fo_table_only := 50; Config.fo_all_in_one := 150;
          Config.fo_dimensioned := 50 |};
     Config.delivery_surcharge_eur := delivery;
     Config.advance_payment_discount_eur :=
       {| Config.adv_none := 0; Config.adv_50 := 50; Config.adv_100 := 100 |};
     Config.two_pcs_line_discount_eur := 25 |}.

Definition reference_config : Config.PricingConfig :=
  reference_config_with
    (list_to_map [("7", 300); ("30", 200); ("45", 100); ("60", 25)]%string).

(** A rule set whose delivery table has the 60-day tier only. *)
Definition sparse_json : value :=
  reference_json_with (obj [("60", VNum 25)]%string).

Definition sparse_config : Config.PricingConfig :=
  reference_config_with {[ "60"%string := 25 ]}.

Definition order (pt : Price.ProductType) (dim : option string) (qty : Q)
    (dd : Price.DeliveryDays) (ap : Price.AdvancePayment) : Price.PriceInput :=
  {| Price.product_type := pt;
     Price.dimension := dim;
     Price.quantity := qty;
     Price.delivery_days := dd;
     Price.base_override_eur := None;
     Price.startup_discount_eur := None;
     Price.first_order_discount_eur := None;
     Price.delivery_surcharge_override := None;
     Price.advance_payment := ap;
     Price.two_pcs_line_discount_eur := None;
     Price.advance_payment_discount_eur := None;
     Price.custom_unit_adjust_eur := None;
     Price.custom_line_adjust_eur := None |}.

(** Scenarios A to C of the specification. *)
Definition scenario_A : Price.PriceInput :=
  order Price.dimensioned (Some "200x100"%string) 1 Price.D60 Price.AP_none.
Definition scenario_B : Price.PriceInput :=
  order Price.table_only None 2 Price.D45 Price.AP_50.
Definition scenario_C : Price.PriceInput :=
  order Price.all_in_one None 1 Price.D30 Price.AP_none.

(** Scenario D, with its three authorized overrides. *)
Definition scenario_D_body : value :=
  obj [ ("product_type", VStr "dimensioned"); ("dimension", VStr "200x100");
        ("quantity", VNum 2); ("delivery_days", VNum 60);
        ("advance_payment", VStr "none");
        ("advance_payment_discount_eur", VNum 30);
        ("custom_unit_adjust_eur", VNum 15);
        ("custom_line_adjust_eur", VNum (-20)) ]%string.

Definition scenario_D : Price.PriceInput :=
  {| Price.product_type := Price.dimensioned;
     Price.dimension := Some "200x100"%string;
     Price.quantity := 2;
     Price.delivery_days := Price.D60;
     Price.base_override_eur := None;
     Price.startup_discount_eur := None;
     Price.first_order_discount_eur := None;
     Price.delivery_surcharge_override := None;
     Price.advance_payment := Price.AP_none;
     Price.two_pcs_line_discount_eur := None;
     Price.advance_payment_discount_eur := Some 30;
     Price.custom_unit_adjust_eur := Some 15;
     Price.custom_line_adjust_eur := Some (-20) |}.

(** A table-only order with an authorized per-unit adjustment of −500. *)
Definition negative_adjust_body : value :=
  obj [ ("product_type", VStr "table_only"); ("quantity", VNum 1);
        ("delivery_days", VNum 60);
        ("custom_unit_adjust_eur", VNum (-500)) ]%string.

Definition negative_adjust : Price.PriceInput :=
  {| Price.product_type := Price.table_only;
     Price.dimension := None;
     Price.quantity := 1;
     Price.delivery_days := Price.D60;
     Price.base_override_eur := None;
     Price.startup_discount_eur := None;
     Price.first_order_discount_eur := None;
     Price.delivery_surcharge_override := None;
     Price.advance_payment := Price.AP_none;
     Price.two_pcs_line_discount_eur := None;
     Price.advance_payment_discount_eur := None;
     Price.custom_unit_adjust_eur := Some (-500);
     Price.custom_line_adjust_eur := None |}.

(** A dimensioned order without a dimension but with an authorized base
    override. *)
Definition override_without_dimension_body : value :=
  obj [ ("product_type", VStr "dimensioned"); ("quantity", VNum 1);
        ("delivery_days", VNum 60); ("base_override_eur", VNum 999) ]%string.

Definition override_without_dimension : Price.PriceInput :=
  {| Price.product_type := Price.dimensioned;
     Price.dimension := None;
     Price.quantity := 1;
     Price.delivery_days := Price.D60;
     Price.base_override_eur := Some 999;
     Price.startup_discount_eur := None;
     Price.first_order_discount_eur := None;
     Price.delivery_surcharge_override := None;
     Price.advance_payment := Price.AP_none;
     Price.two_pcs_line_discount_eur := None;
     Price.advance_payment_discount_eur := None;
     Price.custom_unit_adjust_eur := None;
     Price.custom_line_adjust_eur := None |}.

(** A request body with a field the schema does not declare. *)
Definition body_with_extra : gmap string value :=
  list_to_map [ ("product_type", VStr "table_only"); ("delivery_days", VNum 45);
                ("custom_unit_adjust_eur", VNum 15);
                ("coupon", VStr "FREE") ]%string.

(** The body of scenario C. *)
Definition scenario_C_body : value :=
  obj [ ("product_type", VStr "all_in_one"); ("quantity", VNum 1);
        ("delivery_days", VNum 30); ("advance_payment", VStr "none") ]%string.

(** A dimensioned order naming a method of [Object.prototype]. *)
Definition inherited_dimension : Price.PriceInput :=
  order Price.dimensioned (Some "toString"%string) 1 Price.D60 Price.AP_none.

(** A request body with a fractional quantity. *)
Definition fractional_quantity_body : value :=
  obj [ ("product_type", VStr "table_only"); ("quantity", VNum (3 # 2));
        ("delivery_days", VNum 45) ]%string.

(** A big-table sheet and an all-in-one sheet; cells not listed are
    empty. *)
Definition big_table_sheet : Sheets.sheet :=
  λ a1,
    if String.eqb a1 "C17" then JS.Fin 1170
    else if String.eqb a1 "E2" then JS.Fin 25
    else if String.eqb a1 "E3" then JS.Fin 40
    else if String.eqb a1 "E4" then JS.Fin 50
    else if String.eqb a1 "E5" then JS.Fin 100
    else if String.eqb a1 "E6" then JS.Fin 25
    else if String.eqb a1 "E9" then JS.Fin 25
    else if String.eqb a1 "E10" then JS.Fin 100
    else if String.eqb a1 "E11" then JS.Fin 200
    else JS.NaN.

Definition all_in_one_sheet : Sheets.sheet :=
  λ a1,
    if String.eqb a1 "C2" then JS.Fin 430
    else if String.eqb a1 "C3" then JS.Fin 600
    else if String.eqb a1 "C4" then JS.Fin 700
    else if String.eqb a1 "C5" then JS.Fin 900
    else if String.eqb a1 "E2" then JS.Fin 25
    else if String.eqb a1 "E3" then JS.Fin 50
    else if String.eqb a1 "E4" then JS.Fin 150
    else if String.eqb a1 "E5" then JS.Fin 50
    else if String.eqb a1 "E6" then JS.Fin 100
    else if String.eqb a1 "E7" then JS.Fin 25
    else if String.eqb a1 "E10" then JS.Fin 25
    else if String.eqb a1 "E11" then JS.Fin 100
    else if String.eqb a1 "E12" then JS.Fin 200
    else JS.NaN.

(** A big-table order flagged fast with 30 days of delivery. *)
Definition fast_order_30_days : Sheets.BigTableParams.t :=
  {| Sheets.BigTableParams.dimension := "200 x 100";
     Sheets.BigTableParams.quantity := 1;
     Sheets.BigTableParams.delivery_days := 30;
     Sheets.BigTableParams.advance_payment := 0;
     Sheets.BigTableParams.is_startup_factory := Some true;
     Sheets.BigTableParams.is_fast_order := Some true;
     Sheets.BigTableParams.include_delivery := Some true |}.

Definition sheets_request (pt : Sheets.ProductType) (dim : option string)
    (board water : bool) (qty days : Q) : Sheets.PriceRequest.t :=
  {| Sheets.PriceRequest.product_type := pt;
     Sheets.PriceRequest.dimension := dim;
     Sheets.PriceRequest.is_fast_order := false;
     Sheets.PriceRequest.include_delivery := true;
     Sheets.PriceRequest.has_cutting_board := board;
     Sheets.PriceRequest.has_water_package := water;
     Sheets.PriceRequest.is_first_order := true;
     Sheets.PriceRequest.quantity := qty;
     Sheets.PriceRequest.delivery_days := days;
     Sheets.PriceRequest.advance_payment := 0;
     Sheets.PriceRequest.is_startup_factory := true |}.

End Examples.

(** * Properties *)

(** ** Sanity: the scenarios of the specification *)

Lemma reference_json_parses :
  Config.PricingSchema_safeParse Examples.reference_json = Some Examples.reference_config.
Proof. vm_compute. reflexivity. Qed.

Lemma sparse_json_parses :
  Config.PricingSchema_safeParse Examples.sparse_json = Some Examples.sparse_config.
Proof. vm_compute. reflexivity. Qed.

Lemma scenario_A_price :
  ∃ r, Price.calculatePrice Examples.reference_config Examples.scenario_A = Ok r
       ∧ Price.Breakdown.unit r = JS.Fin 1120 ∧ Price.Breakdown.total r = JS.Fin 1120.
Proof. eexists. split; [reflexivity|]. vm_compute. auto. Qed.

Lemma scenario_B_price :
  ∃ r, Price.calculatePrice Examples.reference_config Examples.scenario_B = Ok r
       ∧ Price.Breakdown.unit r = JS.Fin 405 ∧ Price.Breakdown.subtotal r = JS.Fin 810
       ∧ Price.Breakdown.two_pcs_line_discount_total (Price.Breakdown.adjustments r) = 25
       ∧ Price.Breakdown.total r = JS.Fin 785.
Proof. eexists. split; [reflexivity|]. vm_compute. auto. Qed.

Lemma scenario_C_price :
  ∃ r, Price.calculatePrice Examples.reference_config Examples.scenario_C = Ok r
       ∧ Price.Breakdown.unit r = JS.Fin 925 ∧ Price.Breakdown.total r = JS.Fin 925.
Proof. eexists. split; [reflexivity|]. vm_compute. auto. Qed.

Lemma scenario_D_parses :
  Price.PriceInputSchema_safeParse Examples.scenario_D_body = Some Examples.scenario_D.
Proof. vm_compute. reflexivity. Qed.

Lemma scenario_D_price :
  ∃ r, Price.calculatePrice Examples.reference_config Examples.scenario_D = Ok r
       ∧ Price.Breakdown.unit r = JS.Fin 1105 ∧ Price.Breakdown.subtotal r = JS.Fin 2210
       ∧ Price.Breakdown.total r = JS.Fin 2165.
Proof. eexists. split; [reflexivity|]. vm_compute. auto. Qed.

(** ** Rounding and clamping *)

Section Rounding.

Lemma roundQ_bounds (x : Q) : x - (1 # 2) < JS.roundQ x ∧ JS.roundQ x <= x + (1 # 2).
Proof.
  unfold JS.roundQ.
  pose proof (Qfloor_le (x + (1 # 2))) as Hle.
  pose proof (Qlt_floor (x + (1 # 2))) as Hlt.
  rewrite inject_Z_plus in Hlt. change (inject_Z 1) with 1 in Hlt.
  split; lra.
Qed.

Lemma inject_Z_succ_le (k z : Z) : (k < z)%Z → inject_Z k + 1 <= inject_Z z.
Proof.
  intros Hkz. change 1 with (inject_Z 1).
  rewrite <- inject_Z_plus, <- Zle_Qle. lia.
Qed.

(** [Math.round] returns an integer nearest to its argument. *)
Lemma roundQ_nearest (x : Q) : Spec.nearest_integer (Qfloor (x + (1 # 2))) x.
Proof.
  intros k. destruct (roundQ_bounds x) as [Hlo Hhi]. unfold JS.roundQ in Hlo, Hhi.
  set (z := Qfloor (x + (1 # 2))) in *.
  assert (Hnear : Qabs (x - inject_Z z) <= 1 # 2).
  { apply Qabs_Qle_condition. split; lra. }
  destruct (Z.lt_trichotomy k z) as [Hlt | [Heq | Hgt]].
  - apply inject_Z_succ_le in Hlt.
    pose proof (Qle_Qabs (x - inject_Z k)). lra.
  - subst k. apply Qle_refl.
  - apply inject_Z_succ_le in Hgt.
    pose proof (Qle_Qabs (- (x - inject_Z k))) as Habs.
    rewrite Qabs_opp in Habs. lra.
Qed.

Lemma roundQ_nonneg (x : Q) : - (1 # 2) <= x → 0 <= JS.roundQ x.
Proof.
  intros Hx. unfold JS.roundQ.
  change 0 with (inject_Z 0). rewrite <- Zle_Qle.
  assert (H0 : - (1 # 2) + (1 # 2) == 0) by lra.
  assert (Hmono : (Qfloor (- (1 # 2) + (1 # 2)) <= Qfloor (x + (1 # 2)))%Z).
  { apply Qfloor_resp_le. lra. }
  rewrite (Qfloor_comp _ _ H0) in Hmono. exact Hmono.
Qed.

(** The clamp of the code agrees with [Qmax 0]. *)
Lemma clamp_Qmax (y : Q) : (if Qle_bool 0 y then y else 0) == Qmax 0 y.
Proof.
  destruct (Qle_bool 0 y) eqn:Hle.
  - apply Qle_bool_iff in Hle. symmetry. apply Q.max_r. exact Hle.
  - symmetry. apply Q.max_l.
    destruct (Qlt_le_dec y 0) as [Hlt | Hge].
    + apply Qlt_le_weak. exact Hlt.
    + apply Qle_bool_iff in Hge. congruence.
Qed.

Lemma clamp_nonneg (y : Q) : 0 <= (if Qle_bool 0 y then y else 0).
Proof.
  destruct (Qle_bool 0 y) eqn:Hle.
  - apply Qle_bool_iff. exact Hle.
  - apply Qle_refl.
Qed.

(** On an integer, the clamp is [Z.max 0]. *)
Lemma clamp_inject_Z (z : Z) :
  (if Qle_bool 0 (inject_Z z) then inject_Z z else 0) = Spec.floor_at_zero z.
Proof.
  unfold Spec.floor_at_zero.
  destruct (Qle_bool 0 (inject_Z z)) eqn:Hle.
  - apply Qle_bool_iff in Hle. change 0 with (inject_Z 0) in Hle.
    rewrite <- Zle_Qle in Hle. rewrite Z.max_r by exact Hle. reflexivity.
  - destruct (Z.le_gt_cases 0 z) as [Hz | Hz].
    + exfalso. rewrite Zle_Qle in Hz. apply Qle_bool_iff in Hz.
      change (inject_Z 0) with 0 in Hz. congruence.
    + rewrite Z.max_l by lia. reflexivity.
Qed.

End Rounding.

(** ** How [calculatePrice] unfolds *)

Section Unfolding.

Variables (cfg : Config.PricingConfig) (input : Price.PriceInput).

(** [calculatePrice] returns exactly when the base resolves. *)
Lemma calculatePrice_returns (base : JS.jsval) :
  Price.resolve_base cfg input = Ok base →
  ∃ r, Price.calculatePrice cfg input = Ok r ∧ Price.Breakdown.base r = base.
Proof.
  intros Hbase. unfold Price.calculatePrice. rewrite Hbase.
  eexists. split; reflexivity.
Qed.

Lemma calculatePrice_throws (msg : string) :
  Price.resolve_base cfg input = Throw msg →
  Price.calculatePrice cfg input = Throw msg.
Proof. intros Hbase. unfold Price.calculatePrice. rewrite Hbase. reflexivity. Qed.

(** The unrounded per-unit price when base and delivery are numbers. *)
Lemma unit_before_qty_of_numbers (b d s f a c : Q) :
  Price.unit_before_qty_of (JS.JNumber b) (JS.JNumber d) s f a c
  = JS.Fin ((if Qle_bool 0 (b - s - f + d - a) then b - s - f + d - a else 0) + c).
Proof. reflexivity. Qed.

Lemma unit_before_qty_of_spec (b d s f a c : Q) :
  (if Qle_bool 0 (b - s - f + d - a) then b - s - f + d - a else 0) + c
  == Spec.unit_price b s f d a c.
Proof. unfold Spec.unit_price. rewrite clamp_Qmax. reflexivity. Qed.

End Unfolding.

(** ** The pricing engine *)

Ltac run_calculatePrice Hbase :=
  unfold Price.calculatePrice; rewrite Hbase;
  eexists; split; [reflexivity|];
  cbn [Price.Breakdown.base Price.Breakdown.adjustments Price.Breakdown.unit
       Price.Breakdown.subtotal Price.Breakdown.total
       Price.Breakdown.startup_discount Price.Breakdown.first_order_discount
       Price.Breakdown.delivery_surcharge Price.Breakdown.advance_payment_discount
       Price.Breakdown.two_pcs_line_discount_total
       Price.Breakdown.custom_unit_adjust_eur Price.Breakdown.custom_line_adjust_eur].

Ltac js_arith :=
  cbn [JS.Math_max JS.Math_round JS.lift2 JS.add JS.sub JS.mul JS.ge0 JS.ToNumber].






Lemma nearest_integer_comp (z : Z) (x y : Q) :
  x == y → Spec.nearest_integer z x → Spec.nearest_integer z y.
Proof.
  intros Hxy Hnear k. specialize (Hnear k).
  rewrite <- Hxy. exact Hnear.
Qed.



(** The pair count of an integer quantity is its half, rounded down. *)
Lemma pairs_of_integer (qty : Q) (n : Z) :
  qty == inject_Z n → Price.pairs_of qty = inject_Z (n / 2).
Proof.
  intros Hqty. unfold Price.pairs_of, JS.floorQ. f_equal.
  assert (Hdiv : qty / 2 == inject_Z n / 2) by (rewrite Hqty; reflexivity).
  rewrite (Qfloor_comp _ _ Hdiv).
  unfold Qfloor, Qdiv, Qmult, Qinv, inject_Z. cbn.
  rewrite Z.mul_1_r. reflexivity.
Qed.



(** An unknown dimension is an error as long as no base override is given
    and the name is not one every object inherits. *)
Lemma resolve_base_unknown_dimension
    (cfg : Config.PricingConfig) (input : Price.PriceInput) :
  Price.product_type input = Price.dimensioned →
  Price.base_override_eur input = None →
  (Price.dimension input = None
   ∨ ∃ d, Price.dimension input = Some d
          ∧ Config.dimensionBaseEUR cfg !! d = None
          ∧ d ∉ JS.Object_prototype_keys) →
  Price.resolve_base cfg input = Throw Price.dimension_error.
Proof.
  intros Htype Hoverride Hdim. unfold Price.resolve_base.
  rewrite Hoverride, Htype.
  destruct Hdim as [-> | (d & -> & Hown & Hinherited)]; [reflexivity|].
  unfold JS.in_operator. rewrite Hown.
  rewrite (bool_decide_eq_false_2 (is_Some None)) by (intros [? ?]; discriminate).
  rewrite (bool_decide_eq_false_2 _ Hinherited).
  rewrite orb_true_r. reflexivity.
Qed.

(** C6, as the code has it.  For a dimensioned order: without a base
    override, a dimension that is absent, or that is neither a key of
    [dimensionBaseEUR] nor a name inherited from [Object.prototype], makes
    [calculatePrice] throw the dimension error; with a base override the
    override wins, the dimension is not looked at and no error is raised. *)
Theorem unknown_dimension_rejected_unless_base_override
    (cfg : Config.PricingConfig) (input : Price.PriceInput) :
  Price.product_type input = Price.dimensioned →
  (Price.base_override_eur input = None →
   (Price.dimension input = None
    ∨ ∃ d, Price.dimension input = Some d
           ∧ Config.dimensionBaseEUR cfg !! d = None
           ∧ d ∉ JS.Object_prototype_keys) →
   Price.calculatePrice cfg input = Throw Price.dimension_error)
  ∧ (∀ b, Price.base_override_eur input = Some b →
       ∃ r, Price.calculatePrice cfg input = Ok r
            ∧ Price.Breakdown.base r = JS.JNumber b).
Proof.
  intros Htype. split.
  - intros Hoverride Hdim. apply calculatePrice_throws.
    apply resolve_base_unknown_dimension; assumption.
  - intros b Hoverride. apply calculatePrice_returns.
    unfold Price.resolve_base. rewrite Hoverride. reflexivity.
Qed.

Lemma unknown_dimension_rejected_unless_base_override_witness :
  Price.calculatePrice Examples.reference_config
    (Examples.order Price.dimensioned (Some "90x90"%string) 1 Price.D60 Price.AP_none)
  = Throw Price.dimension_error.
Proof.
  apply (proj1 (unknown_dimension_rejected_unless_base_override
                  Examples.reference_config
                  (Examples.order Price.dimensioned (Some "90x90"%string) 1
                     Price.D60 Price.AP_none)
                  eq_refl) eq_refl).
  right. exists "90x90"%string. split; [reflexivity|]. split; [reflexivity|].
  apply (bool_decide_eq_false_1 _). vm_compute. reflexivity.
Defined.

(** C6, as stated, fails: an accepted dimensioned order without any
    dimension but with [base_override_eur = 999] is priced, base 999. *)
Lemma base_override_bypasses_dimension_check :
  Price.PriceInputSchema_accepts Examples.override_without_dimension
  ∧ Price.product_type Examples.override_without_dimension = Price.dimensioned
  ∧ Price.dimension Examples.override_without_dimension = None
  ∧ ∃ r, Price.calculatePrice Examples.reference_config
           Examples.override_without_dimension = Ok r
         ∧ Price.Breakdown.base r = JS.JNumber 999
         ∧ Price.Breakdown.total r = JS.Fin 949.
Proof.
  split; [exists Examples.override_without_dimension_body; vm_compute; reflexivity|].
  do 2 (split; [reflexivity|]).
  eexists. split; [reflexivity|]. split; vm_compute; reflexivity.
Qed.

(** ** The override gate *)

(** C2.  [sanitizeOverrides(input, true)] is [input] itself, so every
    override field is kept as supplied; the result of
    [sanitizeOverrides(input, false)] has none of the eight override
    fields, whatever [input] holds. *)
Theorem sanitizeOverrides_gates_overrides (input : gmap string value) :
  App.sanitizeOverrides input true = input
  ∧ Forall (λ field, App.sanitizeOverrides input true !! field = input !! field
                     ∧ App.sanitizeOverrides input false !! field = None)
      App.override_fields.
Proof.
  split; [reflexivity|].
  apply Forall_forall. intros field Hfield. split; [reflexivity|].
  unfold App.sanitizeOverrides. apply map_lookup_filter_None. right.
  intros x _ Hkeep. apply Hkeep. exact Hfield.
Qed.

Lemma declared_fields_ne (k field : string) :
  k ∉ App.declared_fields → field ∈ App.declared_fields → k ≠ field.
Proof. intros Hk Hfield ->. exact (Hk Hfield). Qed.

Ltac declared :=
  apply (bool_decide_unpack _); vm_compute; exact I.

(** [PriceInputSchema] reads the declared keys only. *)
Lemma PriceInputSchema_ignores_undeclared (m : gmap string value) (k : string) (v : value) :
  k ∉ App.declared_fields →
  Price.PriceInputSchema_safeParse (VObj (<[k:=v]> m))
  = Price.PriceInputSchema_safeParse (VObj m).
Proof.
  intros Hk. unfold Price.PriceInputSchema_safeParse. cbn [as_obj mbind option_bind].
  rewrite !lookup_insert_ne by (apply (declared_fields_ne _ _ Hk); declared).
  reflexivity.
Qed.

(** C7, as the code has it.  [sanitizeOverrides(input, false)] rejects
    nothing and removes the eight override fields only: every other field
    of [input], declared by the schema or not, is returned as supplied.
    Fields outside the schema are left out by [PriceInputSchema] instead,
    whose parse does not depend on them. *)
Theorem sanitizeOverrides_keeps_every_other_field
    (input : gmap string value) (k : string) :
  (k ∉ App.override_fields → App.sanitizeOverrides input false !! k = input !! k)
  ∧ (k ∉ App.declared_fields →
     ∀ v, Price.PriceInputSchema_safeParse (VObj (<[k:=v]> input))
          = Price.PriceInputSchema_safeParse (VObj input)).
Proof.
  split.
  - intros Hk. unfold App.sanitizeOverrides.
    destruct (input !! k) as [x|] eqn:Hlookup.
    + apply map_lookup_filter_Some. split; [exact Hlookup | exact Hk].
    + apply map_lookup_filter_None. left. exact Hlookup.
  - intros Hk v. apply PriceInputSchema_ignores_undeclared. exact Hk.
Qed.

Lemma sanitizeOverrides_keeps_every_other_field_witness :
  App.sanitizeOverrides Examples.body_with_extra false !! "delivery_days"%string
  = Some (VNum 45).
Proof.
  rewrite (proj1 (sanitizeOverrides_keeps_every_other_field
                    Examples.body_with_extra "delivery_days")).
  - vm_compute. reflexivity.
  - apply (bool_decide_eq_false_1 _). vm_compute. reflexivity.
Defined.

(** C7, as stated, fails: the undeclared field [coupon] of an unprivileged
    request body is still there after [sanitizeOverrides]. *)
Lemma sanitizeOverrides_keeps_unknown_field :
  ("coupon"%string ∉ App.declared_fields)
  ∧ App.sanitizeOverrides Examples.body_with_extra false !! "coupon"%string
    = Some (VStr "FREE").
Proof.
  split.
  - apply (bool_decide_eq_false_1 _). vm_compute. reflexivity.
  - vm_compute. reflexivity.
Qed.

(** ** The input schema *)

Lemma three_halves_not_integer : ¬ ∃ n : Z, 3 # 2 == inject_Z n.
Proof. intros [n Hn]. unfold Qeq in Hn. cbn in Hn. lia. Qed.

(** C8, as the code has it.  The [quantity] check accepts a supplied value
    exactly when it is a number between 1 and 500 inclusive, integer or
    not; so every parsed order has its quantity in that range, and a body
    whose [quantity] is anything else is rejected as a whole.  An absent
    quantity is taken as 1. *)
Theorem quantity_accepted_iff_number_between_1_and_500 :
  (∀ (v : value) (q : Q),
     Price.quantity_schema (Some v) = Some q ↔ v = VNum q ∧ 1 <= q ∧ q <= 500)
  ∧ (∀ (body : value) (input : Price.PriceInput),
       Price.PriceInputSchema_safeParse body = Some input →
       1 <= Price.quantity input ∧ Price.quantity input <= 500)
  ∧ (∀ (m : gmap string value) (v : value),
       m !! "quantity"%string = Some v →
       Price.quantity_schema (Some v) = None →
       Price.PriceInputSchema_safeParse (VObj m) = None)
  ∧ Price.quantity_schema None = Some 1.
Proof.
  assert (Hfield : ∀ (v : value) (q : Q),
            Price.quantity_schema (Some v) = Some q ↔ v = VNum q ∧ 1 <= q ∧ q <= 500).
  { intros v q. unfold Price.quantity_schema. split.
    - destruct v as [| | x | | |]; try discriminate.
      destruct (Qle_bool 1 x) eqn:Hlo; [|discriminate].
      destruct (Qle_bool x 500) eqn:Hhi; [|discriminate].
      cbn. intros [= <-]. apply Qle_bool_iff in Hlo, Hhi. auto.
    - intros (-> & Hlo & Hhi). apply Qle_bool_iff in Hlo, Hhi.
      rewrite Hlo, Hhi. reflexivity. }
  split; [exact Hfield|]. split; [|split; [|reflexivity]].
  - intros body input. unfold Price.PriceInputSchema_safeParse.
    intros Hparse.
    apply bind_Some in Hparse as (m & _ & Hparse).
    apply bind_Some in Hparse as (pt & _ & Hparse).
    apply bind_Some in Hparse as (dim & _ & Hparse).
    apply bind_Some in Hparse as (qty & Hqty & Hparse).
    repeat (apply bind_Some in Hparse as (? & _ & Hparse)).
    injection Hparse as <-. cbn [Price.quantity].
    destruct (m !! "quantity"%string) as [v|] eqn:Hlookup.
    + apply Hfield in Hqty. tauto.
    + injection Hqty as <-. split; [apply Qle_refl | discriminate].
  - intros m v Hlookup Hreject. unfold Price.PriceInputSchema_safeParse.
    cbn [as_obj mbind option_bind]. rewrite Hlookup, Hreject.
    destruct (Price.product_type_schema _); [|reflexivity].
    cbn [mbind option_bind option_ret].
    destruct (Price.dimension_schema _); reflexivity.
Qed.

Lemma quantity_accepted_iff_number_between_1_and_500_witness :
  Price.quantity_schema (Some (VNum 500)) = Some 500
  ∧ Price.PriceInputSchema_safeParse
      (Examples.obj [("product_type", VStr "table_only"); ("quantity", VNum 501);
                     ("delivery_days", VNum 45)]%string) = None.
Proof.
  destruct quantity_accepted_iff_number_between_1_and_500 as (Hfield & _ & Hreject & _).
  split.
  - apply Hfield. split; [reflexivity|]. split; discriminate.
  - apply (Hreject _ (VNum 501)); vm_compute; reflexivity.
Defined.

(** C8, as stated, fails: the quantity 3/2 is not an integer and the
    schema accepts it. *)
Lemma fractional_quantity_accepted :
  Price.quantity_schema (Some (VNum (3 # 2))) = Some (3 # 2)
  ∧ (¬ ∃ n : Z, 3 # 2 == inject_Z n)
  ∧ ∃ input, Price.PriceInputSchema_safeParse Examples.fractional_quantity_body = Some input
             ∧ Price.quantity input = 3 # 2.
Proof.
  split; [reflexivity|]. split; [exact three_halves_not_integer|].
  eexists. split; [vm_compute; reflexivity | reflexivity].
Qed.

(** ** The rule-set loader *)

Section Loader.

Variable src : Config.source.

(** A populated cache answers without touching the source. *)
Lemma getPricingConfig_cached (c : Config.PricingConfig) :
  Config.getPricingConfig src (Some c) = (Ok c, Some c).
Proof. reflexivity. Qed.

(** A failing [getPricingConfig] started from an empty cache and leaves
    it empty. *)
Lemma getPricingConfig_throws (cached cached' : Config.cache) (msg : string) :
  Config.getPricingConfig src cached = (Throw msg, cached') →
  cached = None ∧ cached' = None ∧ Config.load src = Throw msg.
Proof.
  unfold Config.getPricingConfig. destruct cached as [c|]; [discriminate|].
  destruct (Config.load src) as [data | msg']; [discriminate|].
  intros [= -> <-]. auto.
Qed.

(** A successful call caches exactly the value it returns. *)
Lemma getPricingConfig_returns (cached cached' : Config.cache) (data : Config.PricingConfig) :
  Config.getPricingConfig src cached = (Ok data, cached') →
  cached' = Some data.
Proof.
  unfold Config.getPricingConfig. destruct cached as [c|].
  - intros [= <- <-]. reflexivity.
  - destruct (Config.load src) as [data' | msg]; [|discriminate].
    intros [= <- <-]. reflexivity.
Qed.

End Loader.

(** A source fails to load exactly when it is unreadable, malformed or
    rejected by [PricingSchema]. *)
Lemma load_throws_iff (src : Config.source) :
  (∃ msg, Config.load src = Throw msg)
  ↔ src = Config.Unreadable ∨ src = Config.Malformed
    ∨ ∃ json, src = Config.Json json ∧ Config.PricingSchema_safeParse json = None.
Proof.
  split.
  - intros [msg Hload]. destruct src as [| | json]; auto.
    right; right. exists json. split; [reflexivity|].
    cbn in Hload. destruct (Config.PricingSchema_safeParse json); [discriminate | reflexivity].
  - intros [-> | [-> | (json & -> & Hparse)]]; cbn; eauto.
    rewrite Hparse. eauto.
Qed.

(** While the source keeps failing, any number of [getPricingConfig]
    calls leaves an empty cache empty. *)
Lemma get_many_failing (srcs : list Config.source) :
  Forall (λ src, ∃ msg, Config.load src = Throw msg) srcs →
  Config.get_many srcs None = None.
Proof.
  induction 1 as [| src rest [msg Hload] _ IH]; [reflexivity|].
  cbn [Config.get_many]. unfold Config.getPricingConfig. rewrite Hload. exact IH.
Qed.

(** C9, as the code has it.  A failing [getPricingConfig] raises and
    leaves the cache as it was, which can only be empty, since a populated
    cache is returned without reading the source.  A failing
    [reloadPricingConfig] raises and leaves the cache empty, whatever it
    held before: the previous rule set is dropped, and a later
    [getPricingConfig] reads the source again, failing likewise while the
    source stays as it is.  A successful call of either caches exactly the
    rule set it returns. *)
Theorem failed_load_leaves_cache_empty
    (src : Config.source) (cached cached' : Config.cache) (msg : string) :
  (Config.getPricingConfig src cached = (Throw msg, cached') →
   cached = None ∧ cached' = cached)
  ∧ (∀ c, cached = Some c → Config.getPricingConfig src cached = (Ok c, cached))
  ∧ (Config.reloadPricingConfig src cached = (Throw msg, cached') →
     cached' = None
     ∧ Config.getPricingConfig src cached' = (Throw msg, None))
  ∧ (∀ data, Config.getPricingConfig src cached = (Ok data, cached')
             ∨ Config.reloadPricingConfig src cached = (Ok data, cached') →
             cached' = Some data).
Proof.
  split; [|split; [|split]].
  - intros Hget. apply getPricingConfig_throws in Hget as (-> & -> & _). auto.
  - intros c ->. reflexivity.
  - unfold Config.reloadPricingConfig. intros Hreload.
    pose proof Hreload as Hsame.
    apply getPricingConfig_throws in Hreload as (_ & -> & _).
    split; [reflexivity | exact Hsame].
  - intros data [Hget | Hreload].
    + exact (getPricingConfig_returns _ _ _ _ Hget).
    + exact (getPricingConfig_returns _ _ _ _ Hreload).
Qed.

Lemma failed_load_leaves_cache_empty_witness :
  Config.getPricingConfig Config.Malformed None
  = (Throw "Unexpected token in JSON", None).
Proof.
  apply (proj1 (proj2 (proj2 (failed_load_leaves_cache_empty Config.Malformed
                                (Some Examples.reference_config) None
                                "Unexpected token in JSON")))).
  reflexivity.
Defined.

(** C9, as stated, fails for [reloadPricingConfig]: with the reference
    rule set cached and the file now malformed, the reload throws, the
    cache is empty afterwards and the next [getPricingConfig] throws too
    instead of returning the rule set that was cached. *)
Lemma failed_reload_drops_cached_rule_set :
  let cached := Some Examples.reference_config in
  ∃ msg, Config.reloadPricingConfig Config.Malformed cached = (Throw msg, None)
         ∧ snd (Config.reloadPricingConfig Config.Malformed cached) ≠ cached
         ∧ Config.getPricingConfig Config.Malformed
             (snd (Config.reloadPricingConfig Config.Malformed cached))
           = (Throw msg, None).
Proof.
  eexists. split; [reflexivity|]. split; [discriminate | reflexivity].
Qed.

(** ** Tier lookups *)

(** The advance-payment discount is a number for every tier (it is read
    from an object with the three keys required), and the delivery
    surcharge is one as soon as the tier is in the override map or in the
    rule set. *)
Lemma resolve_delivery_number (cfg : Config.PricingConfig) (input : Price.PriceInput) :
  is_Some (Config.delivery_surcharge_eur cfg
             !! Price.String_of_days (Price.delivery_days input)) →
  ∃ d, Price.resolve_delivery cfg input = JS.JNumber d.
Proof.
  intros [d Hd]. unfold Price.resolve_delivery, JS.get_property at 1.
  destruct (default ∅ (Price.delivery_surcharge_override input)
              !! Price.String_of_days (Price.delivery_days input)) as [o|].
  - exists o. reflexivity.
  - assert (Hown : bool_decide (Price.String_of_days (Price.delivery_days input)
                                ∈ JS.Object_prototype_keys) = false).
    { destruct (Price.delivery_days input); vm_compute; reflexivity. }
    rewrite Hown. cbn [JS.nullish]. unfold JS.get_property. rewrite Hd.
    exists d. reflexivity.
Qed.

(** C10 at its failing input.  [PricingSchema] accepts a rule set whose
    delivery table has the 60-day tier only; on it the accepted 30-day
    order of scenario C reads [undefined] for the delivery surcharge, and
    [unit], [subtotal] and [total] are all NaN. *)
Theorem missing_delivery_tier_gives_NaN :
  Config.PricingSchema_safeParse Examples.sparse_json = Some Examples.sparse_config
  ∧ Price.PriceInputSchema_safeParse Examples.scenario_C_body = Some Examples.scenario_C
  ∧ Price.resolve_delivery Examples.sparse_config Examples.scenario_C = JS.JUndefined
  ∧ ∃ r, Price.calculatePrice Examples.sparse_config Examples.scenario_C = Ok r
         ∧ Price.Breakdown.unit r = JS.NaN
         ∧ Price.Breakdown.subtotal r = JS.NaN
         ∧ Price.Breakdown.total r = JS.NaN.
Proof.
  split; [exact sparse_json_parses|].
  split; [vm_compute; reflexivity|].
  split; [vm_compute; reflexivity|].
  eexists. split; [reflexivity|]. repeat split; vm_compute; reflexivity.
Qed.

(** The [in] test of the dimension check also holds for inherited names:
    the dimension [toString] passes it on any rule set, the base is then a
    method and the prices are NaN. *)
Lemma inherited_dimension_gives_NaN :
  ∃ r, Price.calculatePrice Examples.reference_config Examples.inherited_dimension = Ok r
       ∧ Price.Breakdown.base r = JS.JInherited "toString"
       ∧ Price.Breakdown.unit r = JS.NaN
       ∧ Price.Breakdown.total r = JS.NaN.
Proof.
  eexists. split; [reflexivity|]. repeat split; vm_compute; reflexivity.
Qed.

(** * Further properties of the code *)

(** ** [parsed.data] as an object *)

Lemma lookup_table (f : string → option value) (l : list string) (k : string) :
  (list_to_map (omap (λ k, pair k <$> f k) l) : gmap string value) !! k
  = if bool_decide (k ∈ l) then f k else None.
Proof.
  induction l as [| a l IH]; [reflexivity|].
  cbn [omap list_omap]. destruct (decide (k = a)) as [-> | Hne].
  - rewrite bool_decide_eq_true_2 by constructor.
    destruct (f a) as [v|] eqn:Hfa; cbn [fmap option_fmap option_map].
    + cbn [list_to_map foldr uncurry]. apply lookup_insert_eq.
    + rewrite IH. destruct (bool_decide (a ∈ l)); [|reflexivity]. try rewrite Hfa; reflexivity.
  - assert (Hmem : bool_decide (k ∈ a :: l) = bool_decide (k ∈ l)).
    { apply bool_decide_ext. rewrite elem_of_cons. tauto. }
    rewrite Hmem.
    destruct (f a) as [v|]; cbn [fmap option_fmap option_map]; [|exact IH].
    cbn [list_to_map foldr uncurry]. rewrite lookup_insert_ne by (cbn; intros Heq; apply Hne; symmetry; exact Heq).
    exact IH.
Qed.

Lemma field_value_undeclared (data : Price.PriceInput) (k : string) :
  k ∉ Price.schema_keys → Price.field_value data k = None.
Proof.
  intros Hk. unfold Price.field_value.
  repeat match goal with
         | |- (if String.eqb k ?lit then _ else _) = None =>
             destruct (String.eqb_spec k lit) as [-> | _];
             [exfalso; apply Hk; apply (bool_decide_unpack _); vm_compute; exact I|]
         end.
  reflexivity.
Qed.

(** The object has exactly the defined fields. *)
Lemma lookup_data_object (data : Price.PriceInput) (k : string) :
  Price.data_object data !! k = Price.field_value data k.
Proof.
  unfold Price.data_object. rewrite lookup_table.
  destruct (bool_decide (k ∈ Price.schema_keys)) eqn:Hk; [reflexivity|].
  symmetry. apply field_value_undeclared. apply (bool_decide_eq_false_1 _ Hk).
Qed.

Lemma z_number_optional_VNum (o : option Q) : z_number_optional (VNum <$> o) = Some o.
Proof. destruct o; reflexivity. Qed.

Lemma product_type_schema_String (pt : Price.ProductType) :
  Price.product_type_schema (Some (VStr (Price.String_of_product_type pt))) = Some pt.
Proof. destruct pt; reflexivity. Qed.

Lemma dimension_schema_VStr (o : option string) :
  Price.dimension_schema (VStr <$> o) = Some o.
Proof. destruct o; reflexivity. Qed.

Lemma delivery_days_schema_Number (dd : Price.DeliveryDays) :
  Price.delivery_days_schema (Some (VNum (Price.Number_of_days dd))) = Some dd.
Proof. destruct dd; reflexivity. Qed.

Lemma advance_payment_schema_String (ap : Price.AdvancePayment) :
  Price.advance_payment_schema (Some (VStr (Price.String_of_advance_payment ap))) = Some ap.
Proof. destruct ap; reflexivity. Qed.

Lemma z_record_VNum (keyOk : string → bool) (m : gmap string Q) :
  map_Forall (λ k _, keyOk k = true) m →
  z_record keyOk (VObj (VNum <$> m)) = Some m.
Proof.
  intros Hkeys. unfold z_record.
  rewrite bool_decide_eq_true_2.
  - f_equal. apply map_eq. intros k. rewrite lookup_omap, lookup_fmap.
    destruct (m !! k); reflexivity.
  - intros k x. rewrite lookup_fmap. destruct (m !! k) as [q|] eqn:Hq; [|discriminate].
    intros [= <-]. split; [exact (Hkeys k q Hq) | eexists; reflexivity].
Qed.

Lemma delivery_surcharge_override_schema_VObj (o : option (gmap string Q)) :
  Price.delivery_surcharge_override_schema
    ((λ m : gmap string Q, VObj (VNum <$> m)) <$> o) = Some o.
Proof.
  destruct o as [m|]; [|reflexivity].
  cbn [fmap option_fmap option_map Price.delivery_surcharge_override_schema].
  rewrite z_record_VNum by (intros ? ? ?; reflexivity). reflexivity.
Qed.

Ltac read_fields :=
  cbn [Price.field_value String.eqb Ascii.eqb Bool.eqb];
  rewrite ?z_number_optional_VNum, ?product_type_schema_String, ?dimension_schema_VStr,
    ?delivery_days_schema_Number, ?advance_payment_schema_String,
    ?delivery_surcharge_override_schema_VObj;
  cbn [mbind option_bind z_number as_num];
  rewrite ?advance_payment_schema_String;
  cbn [mbind option_bind].

(** Reading [parsed.data] back at its type gives the data. *)
Lemma PriceInput_of_data_object (data : Price.PriceInput) :
  Price.PriceInput_of_object (Price.data_object data) = Some data.
Proof.
  unfold Price.PriceInput_of_object. rewrite !lookup_data_object. read_fields.
  destruct data; reflexivity.
Qed.

(** A successful parse, key by key. *)
Lemma PriceInputSchema_safeParse_fields (m : gmap string value) (data : Price.PriceInput) :
  Price.PriceInputSchema_safeParse (VObj m) = Some data ↔ Price.parsed_fields m data.
Proof.
  unfold Price.PriceInputSchema_safeParse, Price.parsed_fields. cbn [as_obj mbind option_bind].
  split.
  - intros Hparse.
    repeat match type of Hparse with
           | (_ ≫= _) = Some _ =>
               let x := fresh "x" in let Hx := fresh "Hx" in
               apply bind_Some in Hparse as (x & Hx & Hparse)
           end.
    injection Hparse as <-. cbn. repeat split; assumption.
  - intros (H1 & H2 & H3 & H4 & H5 & H6 & H7 & H8 & H9 & H10 & H11 & H12 & H13).
    rewrite H1, H2, H3, H4, H5, H6, H7, H8, H9, H10, H11, H12, H13.
    cbn [mbind option_bind]. destruct data; reflexivity.
Qed.

Lemma PriceInputSchema_safeParse_obj (body : value) (data : Price.PriceInput) :
  Price.PriceInputSchema_safeParse body = Some data → ∃ m, body = VObj m.
Proof.
  destruct body as [| | | | | m]; try discriminate. intros _. exists m. reflexivity.
Qed.

Lemma quantity_schema_range (v : option value) (q : Q) :
  Price.quantity_schema v = Some q → 1 <= q ∧ q <= 500.
Proof.
  unfold Price.quantity_schema. destruct v as [[| | x | | |]|]; try discriminate.
  - destruct (Qle_bool 1 x) eqn:Hlo; [|discriminate].
    destruct (Qle_bool x 500) eqn:Hhi; [|discriminate].
    cbn. intros [= <-]. apply Qle_bool_iff in Hlo, Hhi. auto.
  - intros [= <-]. split; [apply Qle_refl | discriminate].
Qed.

Lemma quantity_schema_in_range (q : Q) :
  1 <= q → q <= 500 → Price.quantity_schema (Some (VNum q)) = Some q.
Proof.
  intros Hlo Hhi. unfold Price.quantity_schema.
  apply Qle_bool_iff in Hlo, Hhi. rewrite Hlo, Hhi. reflexivity.
Qed.



(** ** The override gate on the [/price] route *)

Lemma lookup_sanitize_override (m : gmap string value) (k : string) :
  k ∈ App.override_fields → App.sanitizeOverrides m false !! k = None.
Proof.
  intros Hk. unfold App.sanitizeOverrides. apply map_lookup_filter_None. right.
  intros x _ Hkeep. exact (Hkeep Hk).
Qed.

Lemma lookup_sanitize_other (m : gmap string value) (k : string) :
  k ∉ App.override_fields → App.sanitizeOverrides m false !! k = m !! k.
Proof.
  intros Hk. unfold App.sanitizeOverrides.
  destruct (m !! k) as [x|] eqn:Hlookup.
  - apply map_lookup_filter_Some. split; [exact Hlookup | exact Hk].
  - apply map_lookup_filter_None. left. exact Hlookup.
Qed.

Ltac sanitize_lookups :=
  repeat match goal with
         | |- context [App.sanitizeOverrides ?m false !! ?k] =>
             let b := eval vm_compute in (bool_decide (k ∈ App.override_fields)) in
             match b with
             | true =>
                 rewrite (lookup_sanitize_override m k)
                   by (apply (bool_decide_unpack _); vm_compute; exact I)
             | false =>
                 rewrite (lookup_sanitize_other m k)
                   by (apply (bool_decide_eq_false_1 _); vm_compute; reflexivity)
             end
         end.

(** The payload of the route is always of the type [calculatePrice]
    declares: the parsed order itself for a privileged caller, the order
    without its override fields otherwise. *)
Lemma payload_is_typed (data : Price.PriceInput) (allow : bool) :
  Price.PriceInput_of_object (App.sanitizeOverrides (Price.data_object data) allow)
  = Some (if allow then data else Price.without_overrides data).
Proof.
  destruct allow; [apply PriceInput_of_data_object|].
  unfold Price.PriceInput_of_object. sanitize_lookups.
  rewrite !lookup_data_object. read_fields. reflexivity.
Qed.

(** Removing the override fields from an accepted body gives an accepted
    body, for the order without overrides. *)
Lemma sanitized_body_parses (m : gmap string value) (data : Price.PriceInput) :
  Price.PriceInputSchema_safeParse (VObj m) = Some data →
  Price.PriceInputSchema_safeParse (VObj (App.sanitizeOverrides m false))
  = Some (Price.without_overrides data).
Proof.
  intros Hparse. apply PriceInputSchema_safeParse_fields in Hparse.
  destruct Hparse as (H1 & H2 & H3 & H4 & _ & _ & _ & _ & H9 & _).
  apply PriceInputSchema_safeParse_fields. unfold Price.parsed_fields.
  sanitize_lookups. cbn [Price.without_overrides Price.product_type Price.dimension
    Price.quantity Price.delivery_days Price.base_override_eur
    Price.startup_discount_eur Price.first_order_discount_eur
    Price.delivery_surcharge_override Price.advance_payment
    Price.two_pcs_line_discount_eur Price.advance_payment_discount_eur
    Price.custom_unit_adjust_eur Price.custom_line_adjust_eur].
  repeat split; first [assumption | reflexivity].
Qed.

Lemma without_overrides_idem (data : Price.PriceInput) :
  Price.without_overrides (Price.without_overrides data) = Price.without_overrides data.
Proof. reflexivity. Qed.

(** The route on an accepted body: the price of the parsed order for a
    privileged caller, of the order without overrides otherwise. *)
Lemma price_route_accepted (src : Config.source) (cached : Config.cache)
    (API_KEY header : option string) (body : value) (data : Price.PriceInput) :
  Price.PriceInputSchema_safeParse body = Some data →
  App.price_route src cached API_KEY header body
  = match Price.calculatePrice_cached src cached
            (if App.keyMatches API_KEY header then data
             else Price.without_overrides data) with
    | (Ok r, cached') => (App.Price200 r, cached')
    | (Throw msg, cached') => (App.Price500 (App.error_message msg), cached')
    end.
Proof.
  intros Hparse. unfold App.price_route. rewrite Hparse.
  cbv zeta. rewrite payload_is_typed. reflexivity.
Qed.

(** X2.  An unprivileged caller of [POST /price] whose body is accepted
    gets exactly the answer (and leaves exactly the cache) of the same body
    with the eight override fields taken out: well-typed override values
    have no effect on the public price. *)
Theorem unprivileged_price_ignores_overrides
    (src : Config.source) (cached : Config.cache) (API_KEY header : option string)
    (m : gmap string value) :
  App.keyMatches API_KEY header = false →
  is_Some (Price.PriceInputSchema_safeParse (VObj m)) →
  App.price_route src cached API_KEY header (VObj m)
  = App.price_route src cached API_KEY header (VObj (App.sanitizeOverrides m false)).
Proof.
  intros Hkey [data Hparse].
  rewrite (price_route_accepted _ _ _ _ _ _ Hparse).
  rewrite (price_route_accepted _ _ _ _ _ _ (sanitized_body_parses _ _ Hparse)).
  rewrite Hkey, without_overrides_idem. reflexivity.
Qed.

Lemma unprivileged_price_ignores_overrides_witness :
  let m := match Examples.scenario_D_body with VObj m => m | _ => ∅ end in
  App.price_route (Config.Json Examples.reference_json) None (Some "secret") None (VObj m)
  = App.price_route (Config.Json Examples.reference_json) None (Some "secret") None
      (VObj (App.sanitizeOverrides m false)).
Proof.
  apply unprivileged_price_ignores_overrides.
  - reflexivity.
  - eexists. vm_compute. reflexivity.
Defined.

Lemma z_number_optional_not_number (v : value) :
  as_num v = None → z_number_optional (Some v) = None.
Proof. destruct v; try reflexivity. discriminate. Qed.

(** X3.  Validation comes before the gate: a body carrying an override
    field of the wrong type (a non-number where a number is declared, or a
    [delivery_surcharge_override] that is not an object of numbers) is
    answered 400 whether or not the caller is privileged, and the rule set
    is not even loaded. *)
Theorem ill_typed_override_is_rejected_for_everyone
    (src : Config.source) (cached : Config.cache) (API_KEY header : option string)
    (m : gmap string value) (field : string) (v : value) :
  field ∈ App.override_fields →
  m !! field = Some v →
  (if String.eqb field "delivery_surcharge_override"
   then z_record (λ _, true) v = None
   else as_num v = None) →
  App.price_route src cached API_KEY header (VObj m) = (App.Price400, cached).
Proof.
  intros Hfield Hlookup Hbad. unfold App.price_route.
  destruct (Price.PriceInputSchema_safeParse (VObj m)) as [data|] eqn:Hparse;
    [exfalso | reflexivity].
  apply PriceInputSchema_safeParse_fields in Hparse.
  destruct Hparse as (_ & _ & _ & _ & H5 & H6 & H7 & H8 & _ & H10 & H11 & H12 & H13).
  unfold App.override_fields in Hfield.
  repeat (apply elem_of_cons in Hfield as [-> | Hfield]);
    try (apply elem_of_nil in Hfield; contradiction);
    cbn in Hbad;
    match goal with
    | H : z_number_optional (m !! _) = Some _ |- _ =>
        rewrite Hlookup, (z_number_optional_not_number _ Hbad) in H; discriminate
    | _ => idtac
    end.
  rewrite Hlookup in H8. unfold Price.delivery_surcharge_override_schema in H8.
  rewrite Hbad in H8. discriminate.
Qed.

Lemma ill_typed_override_is_rejected_for_everyone_witness :
  App.price_route (Config.Json Examples.reference_json) None (Some "secret") None
    (Examples.obj [("product_type", VStr "table_only"); ("delivery_days", VNum 45);
                   ("base_override_eur", VStr "1")]%string)
  = (App.Price400, None).
Proof.
  apply (ill_typed_override_is_rejected_for_everyone _ _ _ _ _
           "base_override_eur" (VStr "1")).
  - apply (bool_decide_unpack _). vm_compute. exact I.
  - vm_compute. reflexivity.
  - reflexivity.
Defined.

Lemma truthy_iff (s : string) : JS.truthy s = true ↔ s ≠ ""%string.
Proof. destruct s; cbn; split; intros H; congruence. Qed.

Lemma keyMatches_true_iff (API_KEY header : option string) :
  App.keyMatches API_KEY header = true
  ↔ ∃ key, key ≠ ""%string ∧ API_KEY = Some key ∧ header = Some key.
Proof.
  unfold App.keyMatches. destruct API_KEY as [key|].
  - rewrite andb_true_iff, truthy_iff, bool_decide_eq_true. split.
    + intros [Hne Hhdr]. exists key. auto.
    + intros (key' & Hne & [= <-] & Hhdr). auto.
  - split; [discriminate | intros (key & _ & Hnone & _); discriminate].
Qed.

(** X4.  [keyMatches] holds exactly when an API key is configured, is not
    the empty string and the header carries it; [guard] refuses exactly
    when a non-empty key is configured and the header does not carry it.
    So without a configured key [guard] lets every request through while
    [keyMatches] admits none. *)
Theorem keyMatches_needs_configured_key (API_KEY header : option string) :
  (App.keyMatches API_KEY header = true
   ↔ ∃ key, key ≠ ""%string ∧ API_KEY = Some key ∧ header = Some key)
  ∧ (App.guard API_KEY header = false
     ↔ ∃ key, key ≠ ""%string ∧ API_KEY = Some key ∧ header ≠ Some key)
  ∧ ((API_KEY = None ∨ API_KEY = Some ""%string) →
     App.keyMatches API_KEY header = false ∧ App.guard API_KEY header = true).
Proof.
  split; [apply keyMatches_true_iff|]. split.
  - unfold App.guard. destruct API_KEY as [key|].
    + destruct (JS.truthy key) eqn:Htruthy; cbn [andb].
      * destruct (App.keyMatches (Some key) header) eqn:Hmatch; cbn [negb]; split.
        -- discriminate.
        -- intros (key' & _ & [= <-] & Hhdr). exfalso.
           apply keyMatches_true_iff in Hmatch as (key' & _ & [= <-] & Hhdr').
           exact (Hhdr Hhdr').
        -- intros _. exists key. split; [apply truthy_iff; exact Htruthy|].
           split; [reflexivity|]. intros Hhdr.
           assert (App.keyMatches (Some key) header = true) as Htrue.
           { apply keyMatches_true_iff. exists key.
             split; [apply truthy_iff; exact Htruthy | auto]. }
           congruence.
        -- reflexivity.
      * split; [discriminate|]. intros (key' & Hne & [= <-] & _).
        apply truthy_iff in Hne. congruence.
    + split; [discriminate | intros (key & _ & Hnone & _); discriminate].
  - intros [-> | ->]; split; reflexivity.
Qed.

Lemma keyMatches_needs_configured_key_witness :
  App.keyMatches (Some ""%string) (Some ""%string) = false
  ∧ App.guard (Some ""%string) (Some ""%string) = true.
Proof.
  apply (proj2 (proj2 (keyMatches_needs_configured_key (Some ""%string) (Some ""%string)))).
  right. reflexivity.
Defined.

(** X5.  [POST /admin/reload-config]: a caller without the key gets 401
    and the cache stays as it was; with the key, the cache afterwards is
    the rule set just read and the answer counts its dimensions, or, when
    the source does not load, the answer is a 500 and the cache is left
    empty. *)
Theorem reload_route_needs_key_to_touch_cache
    (src : Config.source) (cached : Config.cache) (API_KEY header : option string) :
  (App.keyMatches API_KEY header = false →
   App.reload_route src cached API_KEY header = (App.Reload401, cached))
  ∧ (App.keyMatches API_KEY header = true →
     (∀ cfg, Config.load src = Ok cfg →
        App.reload_route src cached API_KEY header
        = (App.Reload200 (size (Config.dimensionBaseEUR cfg)), Some cfg))
     ∧ (∀ msg, Config.load src = Throw msg →
          App.reload_route src cached API_KEY header = (App.Reload500, None))).
Proof.
  unfold App.reload_route, Config.reloadPricingConfig, Config.getPricingConfig.
  split.
  - intros ->. reflexivity.
  - intros ->. cbn [negb]. split.
    + intros cfg ->. reflexivity.
    + intros msg ->. reflexivity.
Qed.

Lemma reload_route_needs_key_to_touch_cache_witness :
  App.reload_route Config.Malformed (Some Examples.reference_config) None (Some "guess")
  = (App.Reload401, Some Examples.reference_config).
Proof.
  apply (proj1 (reload_route_needs_key_to_touch_cache _ _ _ _)). reflexivity.
Defined.

Lemma getPricingConfig_Ok (src : Config.source) (cached cached' : Config.cache)
    (cfg : Config.PricingConfig) :
  Config.getPricingConfig src cached = (Ok cfg, cached') →
  cached' = Some cfg ∧ (cached = Some cfg ∨ cached = None ∧ Config.load src = Ok cfg).
Proof.
  unfold Config.getPricingConfig. destruct cached as [c|].
  - intros [= <- <-]. auto.
  - destruct (Config.load src) as [data | msg]; [|discriminate].
    intros [= <- <-]. auto.
Qed.

Lemma calculatePrice_cached_Ok (src : Config.source) (cached cached' : Config.cache)
    (input : Price.PriceInput) (r : Price.Breakdown.t) :
  Price.calculatePrice_cached src cached input = (Ok r, cached') →
  ∃ cfg, cached' = Some cfg ∧ Price.calculatePrice cfg input = Ok r
         ∧ (cached = Some cfg ∨ cached = None ∧ Config.load src = Ok cfg).
Proof.
  unfold Price.calculatePrice_cached.
  destruct (Config.getPricingConfig src cached) as [[cfg | msg] c] eqn:Hget;
    [|discriminate].
  intros [= Hcalc <-]. apply getPricingConfig_Ok in Hget as [-> Hfrom].
  exists cfg. auto.
Qed.

(** With a custom per-unit adjustment that is not negative, the rounded
    unit price is NaN or not negative. *)
Lemma unit_NaN_or_nonneg (base delivery : JS.jsval) (s f a c : Q) :
  0 <= c →
  match JS.Math_round (Price.unit_before_qty_of base delivery s f a c) with
  | JS.Fin u => 0 <= u
  | JS.NaN => True
  end.
Proof.
  intros Hc. unfold Price.unit_before_qty_of.
  destruct (JS.ToNumber base) as [b|]; [|exact I].
  destruct (JS.ToNumber delivery) as [d|]; [|exact I].
  js_arith. apply roundQ_nonneg.
  pose proof (clamp_nonneg (b - s - f + d - a)). lra.
Qed.

Lemma resolve_delivery_no_override (dd : Price.DeliveryDays) :
  JS.get_property ∅ (Price.String_of_days dd) = JS.JUndefined.
Proof. destruct dd; vm_compute; reflexivity. Qed.



(** ** The route and the loader *)

Lemma get_many_cached (srcs : list Config.source) (cfg : Config.PricingConfig) :
  Config.get_many srcs (Some cfg) = Some cfg.
Proof. induction srcs as [| src rest IH]; [reflexivity | exact IH]. Qed.

(** X7.  Once [getPricingConfig] has returned a rule set, every later
    call returns that same rule set and keeps it cached, whatever happens
    to the file in between: the source is not read again until a reload. *)
Theorem rule_set_is_memoized
    (src : Config.source) (cached cached' : Config.cache) (cfg : Config.PricingConfig) :
  Config.getPricingConfig src cached = (Ok cfg, cached') →
  ∀ (srcs : list Config.source) (src' : Config.source),
    Config.get_many srcs cached' = Some cfg
    ∧ Config.getPricingConfig src' (Config.get_many srcs cached') = (Ok cfg, Some cfg).
Proof.
  intros Hget srcs src'. apply getPricingConfig_Ok in Hget as [-> _].
  rewrite get_many_cached. split; reflexivity.
Qed.

Lemma rule_set_is_memoized_witness :
  Config.getPricingConfig Config.Malformed
    (Config.get_many [Config.Unreadable; Config.Malformed]
       (Some Examples.reference_config))
  = (Ok Examples.reference_config, Some Examples.reference_config).
Proof.
  apply (rule_set_is_memoized (Config.Json Examples.reference_json) None).
  vm_compute. reflexivity.
Defined.

(** X8.  [reloadPricingConfig] succeeds exactly when the source is
    readable JSON that [PricingSchema] accepts; it then returns and caches
    the freshly parsed rule set, whatever was cached before, and later
    [getPricingConfig] calls return that new rule set. *)
Theorem reload_reflects_the_source
    (src : Config.source) (cached cached' : Config.cache) (cfg : Config.PricingConfig) :
  Config.reloadPricingConfig src cached = (Ok cfg, cached')
  ↔ cached' = Some cfg
    ∧ (∃ json, src = Config.Json json ∧ Config.PricingSchema_safeParse json = Some cfg)
    ∧ ∀ src', Config.getPricingConfig src' cached' = (Ok cfg, Some cfg).
Proof.
  unfold Config.reloadPricingConfig. cbv zeta. split.
  - intros Hget. apply getPricingConfig_Ok in Hget as [-> [Hold | [_ Hload]]];
      [discriminate|].
    split; [reflexivity|]. split; [|reflexivity].
    destruct src as [| | json]; try discriminate.
    exists json. split; [reflexivity|]. cbn in Hload.
    destruct (Config.PricingSchema_safeParse json); [|discriminate].
    injection Hload as ->. reflexivity.
  - intros (-> & (json & -> & Hparse) & _).
    unfold Config.getPricingConfig, Config.load. rewrite Hparse. reflexivity.
Qed.

Lemma reload_reflects_the_source_witness :
  Config.reloadPricingConfig (Config.Json Examples.sparse_json)
    (Some Examples.reference_config)
  = (Ok Examples.sparse_config, Some Examples.sparse_config).
Proof.
  apply reload_reflects_the_source. split; [reflexivity|]. split; [|reflexivity].
  exists Examples.sparse_json. split; [reflexivity | exact sparse_json_parses].
Defined.

(** X9.  [POST /price] reads the source only on an empty cache.  With a
    rule set cached, the answer does not depend on the source and the
    cache is kept.  On an empty cache an accepted body makes the route
    load the source: when that fails the answer is a 500 carrying the
    loader's message (before any dimension check) and the cache stays
    empty; when it succeeds the answer is the one a cache holding the
    loaded rule set gives, and that rule set is cached. *)
Theorem price_route_loads_lazily
    (src : Config.source) (API_KEY header : option string) (body : value) :
  (∀ src' cfg,
     App.price_route src (Some cfg) API_KEY header body
     = App.price_route src' (Some cfg) API_KEY header body
     ∧ snd (App.price_route src (Some cfg) API_KEY header body) = Some cfg)
  ∧ (is_Some (Price.PriceInputSchema_safeParse body) →
     (∀ msg, Config.load src = Throw msg →
        App.price_route src None API_KEY header body
        = (App.Price500 (App.error_message msg), None))
     ∧ (∀ cfg, Config.load src = Ok cfg →
          App.price_route src None API_KEY header body
          = (fst (App.price_route src (Some cfg) API_KEY header body), Some cfg))).
Proof.
  split.
  - intros src' cfg. unfold App.price_route.
    destruct (Price.PriceInputSchema_safeParse body) as [data|]; [|auto].
    cbv zeta. rewrite payload_is_typed.
    unfold Price.calculatePrice_cached. cbn [Config.getPricingConfig].
    destruct (Price.calculatePrice cfg _); auto.
  - intros [data Hparse]. rewrite !(price_route_accepted _ _ _ _ _ _ Hparse). split.
    + intros msg Hload. unfold Price.calculatePrice_cached, Config.getPricingConfig.
      rewrite Hload. reflexivity.
    + intros cfg Hload. rewrite (price_route_accepted _ _ _ _ _ _ Hparse).
      unfold Price.calculatePrice_cached, Config.getPricingConfig.
      rewrite Hload. destruct (Price.calculatePrice cfg _); reflexivity.
Qed.

Lemma price_route_loads_lazily_witness :
  App.price_route Config.Unreadable None None None
    (Examples.obj [("product_type", VStr "dimensioned"); ("delivery_days", VNum 45)]%string)
  = (App.Price500 "ENOENT: no such file or directory", None).
Proof.
  refine (proj1 (proj2 (price_route_loads_lazily Config.Unreadable None None _) _)
            "ENOENT: no such file or directory"%string eq_refl).
  eexists. vm_compute. reflexivity.
Defined.

(** ** [PricingSchema] *)

Lemma z_record_Some (keyOk : string → bool) (v : value) (m : gmap string Q) :
  z_record keyOk v = Some m →
  ∃ mv, v = VObj mv ∧ m = omap as_num mv
        ∧ map_Forall (λ k x, keyOk k = true ∧ is_Some (as_num x)) mv.
Proof.
  unfold z_record. destruct v as [| | | | | mv]; try discriminate.
  case_bool_decide as Hall; [|discriminate].
  intros [= <-]. exists mv. auto.
Qed.

Lemma z_record_keys (keyOk : string → bool) (v : value) (m : gmap string Q) (k : string) :
  z_record keyOk v = Some m → is_Some (m !! k) → keyOk k = true.
Proof.
  intros Hrec [q Hq]. apply z_record_Some in Hrec as (mv & -> & -> & Hall).
  rewrite lookup_omap in Hq. destruct (mv !! k) as [x|] eqn:Hx; [|discriminate].
  exact (proj1 (Hall k x Hx)).
Qed.

(** A key outside the schema of the keys, or a value that is not a number,
    makes the record fail. *)
Lemma z_record_bad_entry (keyOk : string → bool) (mv : gmap string value)
    (k : string) (x : value) :
  mv !! k = Some x → keyOk k = false ∨ as_num x = None →
  z_record keyOk (VObj mv) = None.
Proof.
  intros Hx Hbad. unfold z_record. case_bool_decide as Hall; [|reflexivity].
  destruct (Hall k x Hx) as [Hkey [q Hnum]].
  destruct Hbad as [Hbad | Hbad]; congruence.
Qed.

Lemma PricingSchema_safeParse_delivery (json : value) (cfg : Config.PricingConfig) :
  Config.PricingSchema_safeParse json = Some cfg →
  ∃ m v, json = VObj m
         ∧ m !! "delivery_surcharge_eur"%string = Some v
         ∧ z_record (λ k, bool_decide (k ∈ Config.DeliveryDaysSchema)) v
           = Some (Config.delivery_surcharge_eur cfg)
         ∧ Forall (λ k, is_Some (m !! k)) Config.PricingSchema_keys.
Proof.
  unfold Config.PricingSchema_safeParse. intros Hparse.
  apply bind_Some in Hparse as (m & Hm & Hparse).
  destruct json as [| | | | | m']; try discriminate. injection Hm as ->.
  apply bind_Some in Hparse as (dims & Hdims & Hparse).
  apply bind_Some in Hdims as (vdims & Hvdims & _).
  apply bind_Some in Hparse as (bt & Hbt & Hparse).
  apply bind_Some in Hbt as (vbt & Hvbt & _).
  apply bind_Some in Hparse as (ba & Hba & Hparse).
  apply bind_Some in Hba as (vba & Hvba & _).
  apply bind_Some in Hparse as (su & Hsu & Hparse).
  apply bind_Some in Hsu as (vsu & Hvsu & _).
  apply bind_Some in Hparse as (fo & Hfo & Hparse).
  apply bind_Some in Hfo as (vfo & Hvfo & _).
  apply bind_Some in Hparse as (fo_t & _ & Hparse).
  apply bind_Some in Hparse as (fo_a & _ & Hparse).
  apply bind_Some in Hparse as (fo_d & _ & Hparse).
  apply bind_Some in Hparse as (ds & Hds & Hparse).
  apply bind_Some in Hds as (vds & Hvds & Hds).
  apply bind_Some in Hparse as (ap & Hap & Hparse).
  apply bind_Some in Hap as (vap & Hvap & _).
  apply bind_Some in Hparse as (ap_n & _ & Hparse).
  apply bind_Some in Hparse as (ap_50 & _ & Hparse).
  apply bind_Some in Hparse as (ap_100 & _ & Hparse).
  apply bind_Some in Hparse as (tp & Htp & Hparse).
  apply bind_Some in Htp as (vtp & Hvtp & _).
  injection Hparse as <-. cbn [Config.delivery_surcharge_eur].
  exists m, vds. split; [reflexivity|]. split; [exact Hvds|]. split; [exact Hds|].
  unfold Config.PricingSchema_keys.
  repeat (apply Forall_cons; split; [eexists; eassumption|]). apply Forall_nil. exact I.
Qed.

Lemma lookup_list_to_map_cons (k' k : string) (v : value) (l : list (string * value)) :
  (list_to_map ((k', v) :: l) : gmap string value) !! k
  = if String.eqb k' k then Some v else (list_to_map l : gmap string value) !! k.
Proof.
  cbn [list_to_map foldr uncurry]. destruct (String.eqb_spec k' k) as [-> | Hne].
  - apply lookup_insert_eq.
  - apply lookup_insert_ne. exact Hne.
Qed.

Ltac json_lookups :=
  cbn [mbind option_bind as_obj];
  rewrite ?lookup_list_to_map_cons;
  cbn [String.eqb Ascii.eqb Bool.eqb mbind option_bind z_number as_num as_obj].

Lemma to_json_parses (cfg : Config.PricingConfig) :
  (∀ k, is_Some (Config.delivery_surcharge_eur cfg !! k) → k ∈ Config.DeliveryDaysSchema) →
  Config.PricingSchema_safeParse (Config.to_json cfg) = Some cfg.
Proof.
  intros Hkeys. unfold Config.PricingSchema_safeParse, Config.to_json.
  json_lookups.
  rewrite (z_record_VNum (λ _, true)) by (intros ? ? ?; reflexivity).
  json_lookups.
  rewrite z_record_VNum.
  - json_lookups. destruct cfg as [? ? ? ? [? ? ?] ? [? ? ?] ?]. reflexivity.
  - intros k q Hq. apply bool_decide_eq_true. apply Hkeys. eexists. exact Hq.
Qed.



(** X11.  [PricingSchema] rejects a document that lacks one of its eight
    top-level keys, and one whose delivery table has a key other than the
    four tiers or a value that is not a number. *)
Theorem PricingSchema_rejects_missing_key_and_foreign_tier (m : gmap string value) :
  (∀ k, k ∈ Config.PricingSchema_keys → m !! k = None →
        Config.PricingSchema_safeParse (VObj m) = None)
  ∧ (∀ table k x,
       m !! "delivery_surcharge_eur"%string = Some (VObj table) →
       table !! k = Some x →
       k ∉ Config.DeliveryDaysSchema ∨ as_num x = None →
       Config.PricingSchema_safeParse (VObj m) = None).
Proof.
  split.
  - intros k Hk Hmissing.
    destruct (Config.PricingSchema_safeParse (VObj m)) as [cfg|] eqn:Hparse;
      [exfalso | reflexivity].
    apply PricingSchema_safeParse_delivery in Hparse as (m' & _ & [= <-] & _ & _ & Hall).
    rewrite Forall_forall in Hall. destruct (Hall k Hk) as [x Hx]. congruence.
  - intros table k x Htable Hentry Hbad.
    destruct (Config.PricingSchema_safeParse (VObj m)) as [cfg|] eqn:Hparse;
      [exfalso | reflexivity].
    apply PricingSchema_safeParse_delivery in Hparse as (m' & v & [= <-] & Hv & Hrec & _).
    rewrite Htable in Hv. injection Hv as <-.
    rewrite (z_record_bad_entry _ table k x Hentry) in Hrec; [discriminate|].
    destruct Hbad as [Hbad | Hbad]; [left | right; exact Hbad].
    apply bool_decide_eq_false. exact Hbad.
Qed.

Lemma PricingSchema_rejects_missing_key_and_foreign_tier_witness :
  Config.PricingSchema_safeParse
    (Examples.reference_json_with (Examples.obj [("90", VNum 10)]%string)) = None.
Proof.
  unfold Examples.reference_json_with, Examples.obj.
  eapply (proj2 (PricingSchema_rejects_missing_key_and_foreign_tier _) _ "90"%string);
    [vm_compute; reflexivity | vm_compute; reflexivity |].
  left. apply (bool_decide_eq_false_1 _). vm_compute. reflexivity.
Defined.

(** ** More on [calculatePrice] *)

Lemma String_of_days_not_inherited (dd : Price.DeliveryDays) :
  bool_decide (Price.String_of_days dd ∈ JS.Object_prototype_keys) = false.
Proof. destruct dd; vm_compute; reflexivity. Qed.

(** Reading a delivery tier gives a number or [undefined]. *)
Lemma get_property_days (o : gmap string Q) (dd : Price.DeliveryDays) :
  JS.get_property o (Price.String_of_days dd)
  = match o !! Price.String_of_days dd with
    | Some q => JS.JNumber q
    | None => JS.JUndefined
    end.
Proof.
  unfold JS.get_property. destruct (o !! Price.String_of_days dd); [reflexivity|].
  rewrite String_of_days_not_inherited. reflexivity.
Qed.

Lemma resolve_delivery_cases (cfg : Config.PricingConfig) (input : Price.PriceInput) :
  Price.resolve_delivery cfg input
  = let key := Price.String_of_days (Price.delivery_days input) in
    match default ∅ (Price.delivery_surcharge_override input) !! key with
    | Some q => JS.JNumber q
    | None =>
        match Config.delivery_surcharge_eur cfg !! key with
        | Some q => JS.JNumber q
        | None => JS.JUndefined
        end
    end.
Proof.
  unfold Price.resolve_delivery. cbv zeta. rewrite !get_property_days.
  destruct (default ∅ (Price.delivery_surcharge_override input) !! _); reflexivity.
Qed.

(** X12.  For an order that is not dimensioned, or that carries a base
    override, [calculatePrice] always returns a breakdown and the
    [dimension] field has no effect on it. *)
Theorem dimension_is_ignored_unless_needed
    (cfg : Config.PricingConfig) (input : Price.PriceInput) (dim : option string) :
  Price.product_type input ≠ Price.dimensioned
  ∨ is_Some (Price.base_override_eur input) →
  (∃ r, Price.calculatePrice cfg input = Ok r)
  ∧ Price.calculatePrice cfg (Price.with_dimension dim input)
    = Price.calculatePrice cfg input.
Proof.
  intros Hfree.
  assert (Hbase : ∀ d, ∃ b, Price.resolve_base cfg (Price.with_dimension d input)
                            = Ok (JS.JNumber b)
                            ∧ Price.resolve_base cfg input = Ok (JS.JNumber b)).
  { intros d. unfold Price.resolve_base.
    cbn [Price.with_dimension Price.base_override_eur Price.product_type Price.dimension].
    destruct (Price.base_override_eur input) as [b|]; [eauto|].
    destruct Hfree as [Htype | [b Hb]]; [|discriminate].
    destruct (Price.product_type input); [contradiction | eauto | eauto]. }
  split.
  - destruct (Hbase dim) as (b & _ & Hb).
    destruct (calculatePrice_returns cfg input _ Hb) as (r & Hr & _). eauto.
  - destruct (Hbase dim) as (b & Hb' & Hb).
    unfold Price.calculatePrice. rewrite Hb', Hb. reflexivity.
Qed.

Lemma dimension_is_ignored_unless_needed_witness :
  Price.calculatePrice Examples.reference_config
    (Price.with_dimension (Some "no such size"%string) Examples.scenario_B)
  = Price.calculatePrice Examples.reference_config Examples.scenario_B.
Proof.
  apply dimension_is_ignored_unless_needed. left. discriminate.
Defined.



Lemma calculatePrice_with_delivery_surcharge_override
    (cfg : Config.PricingConfig) (input : Price.PriceInput) (o o' : option (gmap string Q)) :
  default ∅ o !! Price.String_of_days (Price.delivery_days input)
  = default ∅ o' !! Price.String_of_days (Price.delivery_days input) →
  Price.calculatePrice cfg (Price.with_delivery_surcharge_override o input)
  = Price.calculatePrice cfg (Price.with_delivery_surcharge_override o' input).
Proof.
  intros Hsame.
  assert (Hdelivery :
            Price.resolve_delivery cfg (Price.with_delivery_surcharge_override o input)
            = Price.resolve_delivery cfg (Price.with_delivery_surcharge_override o' input)).
  { rewrite !resolve_delivery_cases. cbv zeta.
    cbn [Price.with_delivery_surcharge_override Price.delivery_surcharge_override
         Price.delivery_days].
    rewrite Hsame. reflexivity. }
  unfold Price.calculatePrice. rewrite Hdelivery. reflexivity.
Qed.

(** X14.  Of a [delivery_surcharge_override] map only the entry of the
    order's own delivery tier counts: an entry for any other key changes
    nothing, an empty map is the same as no map, and an entry for the
    order's tier is the delivery surcharge of the breakdown, whatever the
    rule set says. *)
Theorem delivery_override_counts_for_own_tier_only
    (cfg : Config.PricingConfig) (input : Price.PriceInput)
    (m : gmap string Q) (k : string) (v : Q) :
  let key := Price.String_of_days (Price.delivery_days input) in
  (k ≠ key →
   Price.calculatePrice cfg (Price.with_delivery_surcharge_override (Some (<[k:=v]> m)) input)
   = Price.calculatePrice cfg (Price.with_delivery_surcharge_override (Some m) input))
  ∧ Price.calculatePrice cfg (Price.with_delivery_surcharge_override (Some ∅) input)
    = Price.calculatePrice cfg (Price.with_delivery_surcharge_override None input)
  ∧ (∀ r, Price.calculatePrice cfg
            (Price.with_delivery_surcharge_override (Some (<[key:=v]> m)) input) = Ok r →
          Price.Breakdown.delivery_surcharge (Price.Breakdown.adjustments r)
          = JS.JNumber v).
Proof.
  cbv zeta. split; [|split].
  - intros Hne. apply calculatePrice_with_delivery_surcharge_override.
    cbn [default]. apply lookup_insert_ne. exact Hne.
  - apply calculatePrice_with_delivery_surcharge_override. reflexivity.
  - intros r. unfold Price.calculatePrice.
    destruct (Price.resolve_base cfg _) as [base | msg]; [|discriminate].
    intros [= <-]. cbn [Price.Breakdown.adjustments Price.Breakdown.delivery_surcharge].
    rewrite resolve_delivery_cases. cbv zeta.
    cbn [Price.with_delivery_surcharge_override Price.delivery_surcharge_override
         Price.delivery_days].
    change (default ∅ (Some (<[Price.String_of_days (Price.delivery_days input):=v]> m)))
      with (<[Price.String_of_days (Price.delivery_days input):=v]> m).
    rewrite lookup_insert_eq. reflexivity.
Qed.

Lemma delivery_override_counts_for_own_tier_only_witness :
  Price.calculatePrice Examples.reference_config
    (Price.with_delivery_surcharge_override (Some (<["30"%string := 1]> ∅))
       Examples.scenario_A)
  = Price.calculatePrice Examples.reference_config
      (Price.with_delivery_surcharge_override (Some ∅) Examples.scenario_A).
Proof.
  apply (proj1 (delivery_override_counts_for_own_tier_only
                  Examples.reference_config Examples.scenario_A ∅ "30" 1)).
  discriminate.
Defined.

Lemma roundQ_integer (x : Q) (z : Z) : x == inject_Z z → JS.roundQ x = inject_Z z.
Proof.
  intros Hx. unfold JS.roundQ. f_equal.
  assert (Hhalf : x + (1 # 2) == inject_Z z + (1 # 2)) by (rewrite Hx; reflexivity).
  rewrite (Qfloor_comp _ _ Hhalf). unfold Qfloor, Qplus, inject_Z. cbn.
  symmetry. apply (Z.div_unique_pos _ _ _ 1); lia.
Qed.





(** ** The spreadsheet path *)




(** Every dimension the service lets through has its cell in the sheet
    layout, and is not the empty string. *)
Lemma validDimensions_have_cells (dimension : string) :
  dimension ∈ Sheets.validDimensions →
  JS.truthy dimension = true
  ∧ ∃ cellAddress,
      (list_to_map Sheets.dimensionMap : gmap string string) !! dimension
      = Some cellAddress.
Proof.
  unfold Sheets.validDimensions. intros Hin.
  repeat (apply elem_of_cons in Hin as [-> | Hin];
          [split; [reflexivity | eexists; vm_compute; reflexivity]|]).
  apply elem_of_nil in Hin. contradiction.
Qed.

(** X19.  The big-table branch of the service fails with "Dimension is
    required" on a missing or empty dimension and with "Invalid dimension"
    on one outside the sixteen it lists.  Each of the sixteen (they are
    also what [getAvailableDimensions] advertises) has a cell: the order
    is priced from it when the cell holds a number other than 0, and fails
    with "Price not found" when the cell is empty, not a number or 0. *)
Theorem big_table_service_outcomes (s : Sheets.sheet) (request : Sheets.PriceRequest.t) :
  let answer := Sheets.service_calculateBigTablePrice s request in
  let required := Throw "Dimension is required for big_table product type" in
  (Sheets.PriceRequest.dimension request = None
   ∨ Sheets.PriceRequest.dimension request = Some ""%string → answer = required)
  ∧ (∀ dimension,
       Sheets.PriceRequest.dimension request = Some dimension →
       dimension ≠ ""%string →
       dimension ∉ Sheets.getAvailableDimensions →
       answer = Throw ("Invalid dimension: " ++ dimension ++ ". Valid dimensions: "
                       ++ Sheets.join Sheets.validDimensions))
  ∧ (∀ dimension,
       Sheets.PriceRequest.dimension request = Some dimension →
       dimension ∈ Sheets.getAvailableDimensions →
       ∃ cellAddress,
         (list_to_map Sheets.dimensionMap : gmap string string) !! dimension
         = Some cellAddress
         ∧ (Sheets.cell_number s cellAddress == 0 →
            answer = Throw ("Price not found for dimension: " ++ dimension))
         ∧ (¬ Sheets.cell_number s cellAddress == 0 →
            ∃ r, answer = Ok (Sheets.BigTable r)
                 ∧ Sheets.BigTableResult.base_price r = Sheets.cell_number s cellAddress
                 ∧ Sheets.BigTableResult.dimension r = dimension)).
Proof.
  cbv zeta. unfold Sheets.service_calculateBigTablePrice. split; [|split].
  - intros [-> | ->]; reflexivity.
  - intros dimension -> Hne Hout. apply truthy_iff in Hne. rewrite Hne. cbn [negb].
    rewrite bool_decide_eq_false_2 by exact Hout. reflexivity.
  - intros dimension -> Hin.
    destruct (validDimensions_have_cells _ Hin) as (Htruthy & cellAddress & Hcell).
    exists cellAddress. split; [exact Hcell|].
    rewrite Htruthy. cbn [negb].
    rewrite (bool_decide_eq_true_2 (dimension ∈ Sheets.validDimensions)) by exact Hin.
    cbn [negb]. unfold Sheets.calculateBigTablePrice. cbv zeta.
    cbn [Sheets.BigTableParams.dimension]. unfold Sheets.getBigTableBasePrice.
    rewrite Hcell. split.
    + intros Hzero. apply Qeq_bool_iff in Hzero. rewrite Hzero. reflexivity.
    + intros Hnonzero.
      destruct (Qeq_bool (Sheets.cell_number s cellAddress) 0) eqn:Hzero.
      * exfalso. apply Hnonzero. apply Qeq_bool_iff. exact Hzero.
      * eexists. split; [reflexivity|]. split; reflexivity.
Qed.

Lemma big_table_service_outcomes_witness :
  Sheets.service_calculateBigTablePrice Examples.big_table_sheet
    (Examples.sheets_request Sheets.big_table (Some "140 x 70"%string) false false 1 30)
  = Throw "Price not found for dimension: 140 x 70".
Proof.
  destruct (proj2 (proj2 (big_table_service_outcomes Examples.big_table_sheet
                            (Examples.sheets_request Sheets.big_table
                               (Some "140 x 70"%string) false false 1 30)))
              "140 x 70"%string eq_refl) as (cellAddress & Hcell & Hzero & _).
  - apply (bool_decide_unpack _). vm_compute. exact I.
  - apply Hzero. vm_compute in Hcell. injection Hcell as <-. reflexivity.
Defined.

Lemma PriceRequestSchema_check_iff (request : Sheets.PriceRequest.t) :
  Sheets.PriceRequestSchema_check request = true
  ↔ (1 <= Sheets.PriceRequest.quantity request
     ∧ Sheets.PriceRequest.quantity request <= 500)
    ∧ (7 <= Sheets.PriceRequest.delivery_days request
       ∧ Sheets.PriceRequest.delivery_days request <= 60)
    ∧ (0 <= Sheets.PriceRequest.advance_payment request
       ∧ Sheets.PriceRequest.advance_payment request <= 100).
Proof.
  unfold Sheets.PriceRequestSchema_check.
  rewrite !andb_true_iff, !Qle_bool_iff. tauto.
Qed.



(** ** The override gate, composed *)

(** X21.  [sanitizeOverrides] composes like a conjunction of privileges:
    sanitizing twice is sanitizing once with both flags required, so the
    unprivileged gate is idempotent and nothing a later privileged pass
    does brings a removed field back.  The keys of the unprivileged result
    are the keys of the input minus the eight override names. *)
Theorem sanitizeOverrides_composes (input : gmap string value) (allow allow' : bool) :
  App.sanitizeOverrides (App.sanitizeOverrides input allow) allow'
  = App.sanitizeOverrides input (allow && allow')
  ∧ dom (App.sanitizeOverrides input false)
    = dom input ∖ list_to_set App.override_fields.
Proof.
  split.
  - destruct allow, allow'; try reflexivity.
    apply map_eq. intros k.
    destruct (decide (k ∈ App.override_fields)) as [Hk | Hk].
    + rewrite !lookup_sanitize_override by exact Hk. reflexivity.
    + rewrite !lookup_sanitize_other by exact Hk. reflexivity.
  - apply set_eq. intros k.
    rewrite elem_of_difference, !elem_of_dom, elem_of_list_to_set.
    destruct (decide (k ∈ App.override_fields)) as [Hk | Hk].
    + rewrite lookup_sanitize_override by exact Hk. split.
      * intros [x Hx]. discriminate.
      * intros [_ Hnot]. contradiction.
    + rewrite lookup_sanitize_other by exact Hk. tauto.
Qed.
